(** * Laxmi Enterprise API: order intake, admin gate and catalogue

    A shallow embedding of [src/main.py] and [src/schemas.py].

    - Documents are Python dicts: finite maps from field names to values.
    - The document store is a finite map from collection names to lists of
      documents (the store's natural order), with a counter for fresh
      identifiers; the world also keeps a trace of the operations that
      reached the store and of the tasks scheduled.
    - A handler is a function from the world before the call to its outcome
      (a returned value or a raised exception) and the world after it.
    - A Python [str] is the string of the bytes of its UTF-8 encoding; where
      the code counts characters, the model counts the bytes that start one.
    - What the code takes from libraries that are not part of the repository
      (the email syntax check of [EmailStr], pydantic's coercions, the text of
      a float, the [ObjectId] syntax, [int], the header check of
      [EmailMessage]) is a parameter, gathered in [Externals]. *)

From Stdlib Require Import Floats.PrimFloat Ascii String.
From stdpp Require Import base option gmap strings list.

(** ** Values and documents *)

Definition ObjectId := N.

Inductive value :=
| VNone
| VBool (b : bool)
| VFloat (f : float)
| VStr (s : string)
| VOid (o : ObjectId).

Abbreviation doc := (gmap string value).

(** What the code uses of pydantic, bson and the Python runtime. *)
Class Externals := {
  (** [EmailStr]: the validated (normalised) address, or a failure. *)
  EmailStr : string → option string;
  (** [str(x)] for a float [x], as an f-string prints it. *)
  float_str : float → string;
  (** [ObjectId.is_valid(s)]. *)
  ObjectId_is_valid : string → bool;
  (** [ObjectId(s)] for a string accepted by [ObjectId.is_valid]. *)
  ObjectId_of_str : string → ObjectId;
  (** [str(oid)]. *)
  ObjectId_str : ObjectId → string;
  (** [int(s)]; [None] stands for [ValueError]. *)
  int_of_str : string → option Z;
  (** pydantic's lax mode on a [float] field given a value that is not a
      float: the float it makes of it (of a numeric string, say), if any. *)
  lax_float : value → option float;
  (** pydantic's lax mode on a [bool] field given a value that is not a
      bool: the bool it makes of it (of [1], of "yes", say), if any. *)
  lax_bool : value → option bool;
  (** [EmailMessage] (default policy) takes [s] as a header value:
      [msg[name] = s] raises [ValueError] when [s.splitlines()] has more than
      one line. *)
  header_ok : string → bool;
}.

(** ASCII lower-casing, [str.lower] on the strings compared below. *)
Definition lower_ascii (c : ascii) : ascii :=
  let n := nat_of_ascii c in
  if (65 <=? n)%nat && (n <=? 90)%nat then ascii_of_nat (n + 32) else c.

Fixpoint lower (s : string) : string :=
  match s with
  | EmptyString => EmptyString
  | String c s' => String (lower_ascii c) (lower s')
  end.

(** Python truthiness of a [str] and of an [Optional[str]]. *)
Definition truthy (s : string) : bool :=
  match s with EmptyString => false | _ => true end.

Definition truthy_opt (o : option string) : bool :=
  match o with Some s => truthy s | None => false end.

(** The string of an [Optional[str]] that is not [None]. *)
Definition the (o : option string) : string := default EmptyString o.

(** [x or '-'] for an [Optional[str]]. *)
Definition or_dash (o : option string) : string :=
  if truthy_opt o then the o else "-".

(** ** Schemas ([src/schemas.py]) *)

Record Product := {
  title : string;
  description : option string;
  price : float;
  category : string;
  in_stock : bool;
  image_url : option string;
}.

Record Business := {
  name : string;
  email : string;
  phone : option string;
  address_line1 : option string;
  address_line2 : option string;
  city : option string;
  state : option string;
  postal_code : option string;
  country : option string;
}.

Record InkOrder := {
  customer_name : string;
  customer_email : string;
  customer_phone : option string;
  color : string;
  quantity_liters : float;
  message : option string;
  delivery_address : option string;
}.

(** *** Field validators

    A model is built from a dict of values (a decoded JSON body, or a stored
    document passed as keyword arguments). Keys that are not fields are
    ignored. Every validator returns [None] for a validation error. A [str]
    field takes a string only. A [float] or [bool] field takes a value of its
    type as it is, and any other value through pydantic's lax mode. A number
    of a JSON body is a [VFloat], whether it was written [5] or [5.0]. *)

(** [f: str = Field(...)] *)
Definition field_str (d : doc) (k : string) : option string :=
  match d !! k with
  | Some (VStr s) => Some s
  | _ => None
  end.

(** [f: Optional[str] = None] *)
Definition field_opt_str (d : doc) (k : string) : option (option string) :=
  match d !! k with
  | None => Some None
  | Some VNone => Some None
  | Some (VStr s) => Some (Some s)
  | Some _ => None
  end.

(** The float, the bool, a field is given. *)
Definition as_float `{Ext : Externals} (v : value) : option float :=
  match v with
  | VFloat x => Some x
  | _ => lax_float v
  end.

Definition as_bool `{Ext : Externals} (v : value) : option bool :=
  match v with
  | VBool b => Some b
  | _ => lax_bool v
  end.

(** [f: float = Field(..., ge=0)] and [f: float = Field(..., gt=0)]:
    [ok] is the bound, checked on the float the field is given. *)
Definition field_float `{Ext : Externals} (d : doc) (k : string)
    (ok : float → bool) : option float :=
  match d !! k with
  | Some v =>
      match as_float v with
      | Some x => if ok x then Some x else None
      | None => None
      end
  | None => None
  end.

(** [f: bool = Field(dflt)] *)
Definition field_bool `{Ext : Externals} (d : doc) (k : string) (dflt : bool)
    : option bool :=
  match d !! k with
  | None => Some dflt
  | Some v => as_bool v
  end.

Definition ge0 (x : float) : bool := PrimFloat.leb 0 x.
Definition gt0 (x : float) : bool := PrimFloat.ltb 0 x.

Definition dump_opt (o : option string) : value :=
  match o with Some s => VStr s | None => VNone end.

Section Schemas.
Context `{Ext : Externals}.

(** [f: EmailStr = Field(...)] *)
Definition field_email (d : doc) (k : string) : option string :=
  s ← field_str d k; EmailStr s.

(** The constructor call of [Product] with the items of [d] as keyword arguments. *)
Definition Product_parse (d : doc) : option Product :=
  t ← field_str d "title";
  ds ← field_opt_str d "description";
  p ← field_float d "price" ge0;
  c ← field_str d "category";
  i ← field_bool d "in_stock" true;
  u ← field_opt_str d "image_url";
  Some {| title := t; description := ds; price := p; category := c;
          in_stock := i; image_url := u |}.

(** The constructor call of [Business] with the items of [d] as keyword arguments. *)
Definition Business_parse (d : doc) : option Business :=
  n ← field_str d "name";
  e ← field_email d "email";
  p ← field_opt_str d "phone";
  a1 ← field_opt_str d "address_line1";
  a2 ← field_opt_str d "address_line2";
  ci ← field_opt_str d "city";
  st ← field_opt_str d "state";
  pc ← field_opt_str d "postal_code";
  co ← field_opt_str d "country";
  Some {| name := n; email := e; phone := p; address_line1 := a1;
          address_line2 := a2; city := ci; state := st; postal_code := pc;
          country := co |}.

(** The constructor call of [InkOrder] with the items of [d] as keyword arguments. *)
Definition InkOrder_parse (d : doc) : option InkOrder :=
  n ← field_str d "customer_name";
  e ← field_email d "customer_email";
  p ← field_opt_str d "customer_phone";
  c ← field_str d "color";
  q ← field_float d "quantity_liters" gt0;
  m ← field_opt_str d "message";
  a ← field_opt_str d "delivery_address";
  Some {| customer_name := n; customer_email := e; customer_phone := p;
          color := c; quantity_liters := q; message := m;
          delivery_address := a |}.

End Schemas.

(** [model_dump()] of each model: every field, absent optionals as [None]. *)
Definition Product_dump (p : Product) : doc :=
  <["title" := VStr (title p)]>
  (<["description" := dump_opt (description p)]>
  (<["price" := VFloat (price p)]>
  (<["category" := VStr (category p)]>
  (<["in_stock" := VBool (in_stock p)]>
  (<["image_url" := dump_opt (image_url p)]> ∅))))).

Definition Business_dump (b : Business) : doc :=
  <["name" := VStr (name b)]>
  (<["email" := VStr (email b)]>
  (<["phone" := dump_opt (phone b)]>
  (<["address_line1" := dump_opt (address_line1 b)]>
  (<["address_line2" := dump_opt (address_line2 b)]>
  (<["city" := dump_opt (city b)]>
  (<["state" := dump_opt (state b)]>
  (<["postal_code" := dump_opt (postal_code b)]>
  (<["country" := dump_opt (country b)]> ∅)))))))).

Definition InkOrder_dump (o : InkOrder) : doc :=
  <["customer_name" := VStr (customer_name o)]>
  (<["customer_email" := VStr (customer_email o)]>
  (<["customer_phone" := dump_opt (customer_phone o)]>
  (<["color" := VStr (color o)]>
  (<["quantity_liters" := VFloat (quantity_liters o)]>
  (<["message" := dump_opt (message o)]>
  (<["delivery_address" := dump_opt (delivery_address o)]> ∅)))))).

(** ** The document store

    [database.py] ([db], [create_document], [get_documents]) is not among the
    sources; the collections themselves are pymongo's. *)

(** What a handler does outside itself: a request that reached the store, or
    a task handed to [BackgroundTasks]. *)
Inductive Event :=
| OpInsert (coll : string) (d : doc)
| OpFind (coll : string) (filt : doc)
| OpUpdateOne (coll : string) (filt : doc) (fields : doc)
| OpDeleteOne (coll : string) (filt : doc)
| OpAddTask (order : InkOrder) (business : Business).

Record World := {
  (** the collections of [db], each in the store's natural order *)
  db : gmap string (list doc);
  (** the next identifier the store assigns *)
  fresh : ObjectId;
  (** every event so far, oldest first *)
  trace : list Event;
  (** the request's [BackgroundTasks]: calls of [send_order_email] to run
      after the response *)
  background_tasks : list (InkOrder * Business);
}.

Inductive exn :=
| HTTPException (status_code : Z) (detail : string)
| RequestValidationError
| ValidationError
| KeyError (k : string)
| RuntimeError (msg : string)
| ValueError.

(** A computation: the outcome and the world it leaves. *)
Definition M (A : Type) : Type := World → (exn + A) * World.

Definition ret {A} (a : A) : M A := λ w, (inr a, w).
Definition raise {A} (e : exn) : M A := λ w, (inl e, w).

#[global] Instance M_bind : MBind M := λ A B (f : A → M B) (m : M A) w,
  match m w with
  | (inr a, w') => f a w'
  | (inl e, w') => (inl e, w')
  end.

(** [try: m except Exception: h] *)
Definition try_except {A} (m : M A) (h : M A) : M A := λ w,
  match m w with
  | (inr a, w') => (inr a, w')
  | (inl _, w') => h w'
  end.

(** Building a model inside a handler: a failure is a [ValidationError]. *)
Definition construct {A} (o : option A) : M A :=
  match o with Some a => ret a | None => raise ValidationError end.

(** A [for] loop that collects one result per element. *)
Fixpoint for_each {A B} (f : A → M B) (l : list A) : M (list B) :=
  match l with
  | [] => ret []
  | a :: l' => b ← f a; bs ← for_each f l'; ret (b :: bs)
  end.

Definition value_eqb (a b : value) : bool :=
  match a, b with
  | VNone, VNone => true
  | VBool x, VBool y => Bool.eqb x y
  | VFloat x, VFloat y => PrimFloat.eqb x y
  | VStr x, VStr y => String.eqb x y
  | VOid x, VOid y => N.eqb x y
  | _, _ => false
  end.

(** A filter is a dict of equalities: [d] matches when it has every key of
    the filter with an equal value. *)
Definition matches (filt d : doc) : bool :=
  forallb (λ kv : string * value,
             match d !! kv.1 with
             | Some v => value_eqb kv.2 v
             | None => false
             end) (map_to_list filt).

(** [_collection(name)]: the documents of [db[name]]. *)
Definition _collection (w : World) (name : string) : list doc :=
  default [] (db w !! name).

(** The first match gets the fields of [$set]; the count of matches (0 or 1)
    comes back. *)
Fixpoint update_first (filt fields : doc) (l : list doc) : nat * list doc :=
  match l with
  | [] => (0, [])
  | d :: l' =>
      if matches filt d then (1, (fields ∪ d) :: l')
      else let r := update_first filt fields l' in (r.1, d :: r.2)
  end.

Fixpoint delete_first (filt : doc) (l : list doc) : nat * list doc :=
  match l with
  | [] => (0, [])
  | d :: l' =>
      if matches filt d then (1, l')
      else let r := delete_first filt l' in (r.1, d :: r.2)
  end.

(** [db[coll].update_one(filt, {"$set": fields}).matched_count] *)
Definition update_one (coll : string) (filt fields : doc) : M nat := λ w,
  let r := update_first filt fields (_collection w coll) in
  (inr r.1,
   {| db := <[coll := r.2]> (db w); fresh := fresh w;
      trace := trace w ++ [OpUpdateOne coll filt fields];
      background_tasks := background_tasks w |}).

(** [db[coll].delete_one(filt).deleted_count] *)
Definition delete_one (coll : string) (filt : doc) : M nat := λ w,
  let r := delete_first filt (_collection w coll) in
  (inr r.1,
   {| db := <[coll := r.2]> (db w); fresh := fresh w;
      trace := trace w ++ [OpDeleteOne coll filt];
      background_tasks := background_tasks w |}).

Section Database.
Context `{Ext : Externals}.

(** Modelled from the spec: [create_document] of the missing [database.py],
    "create(collection, record) → identifier": the record is appended to the
    collection under a store-assigned identifier, which is returned as a
    string. *)
Definition create_document (coll : string) (data : doc) : M string := λ w,
  let d := <["_id" := VOid (fresh w)]> data in
  (inr (ObjectId_str (fresh w)),
   {| db := <[coll := _collection w coll ++ [d]]> (db w);
      fresh := N.succ (fresh w);
      trace := trace w ++ [OpInsert coll d];
      background_tasks := background_tasks w |}).

(** Modelled from the spec: [get_documents] of the missing [database.py],
    "query(collection, filter) → sequence of records", the filter a set of
    equalities on fields. *)
Definition get_documents (coll : string) (filt : doc) : M (list doc) := λ w,
  (inr (filter (λ d, matches filt d = true) (_collection w coll)),
   {| db := db w; fresh := fresh w;
      trace := trace w ++ [OpFind coll filt];
      background_tasks := background_tasks w |}).

End Database.

(** [background_tasks.add_task(send_order_email, order, business)] *)
Definition add_task (order : InkOrder) (business : Business) : M unit := λ w,
  (inr tt,
   {| db := db w; fresh := fresh w;
      trace := trace w ++ [OpAddTask order business];
      background_tasks := background_tasks w ++ [(order, business)] |}).

(** ** Email *)

Record EmailMessage := {
  Subject : string;
  From : string;
  To : string;
  content : string;
}.

(** What [send_order_email] does with [smtplib.SMTP], in order. *)
Inductive SmtpStep :=
| smtp_connect (host : string) (port : Z)
| starttls
| login (user password : string)
| send_message (msg : EmailMessage).

Definition nl : string := String (ascii_of_nat 10) EmptyString.

(** ** The application ([src/main.py]) *)

Section App.
Context `{Ext : Externals}.
(** [os.environ] when the module is imported and when a handler runs. *)
Context (environ : gmap string string).

Local Open Scope string_scope.

Definition getenv (k : string) : option string := environ !! k.
Definition getenv_or (k dflt : string) : string := default dflt (environ !! k).

Definition ADMIN_TOKEN : string := getenv_or "ADMIN_TOKEN" "changeme".

(** [x != t] for [x : Optional[str]] and [t : str]. *)
Definition differs (x : option string) (t : string) : bool :=
  match x with
  | Some s => negb (String.eqb s t)
  | None => true
  end.

Definition verify_admin (x_admin_token : option string) : M unit :=
  if negb (truthy_opt x_admin_token) || differs x_admin_token ADMIN_TOKEN
  then raise (HTTPException 401 "Unauthorized")
  else ret tt.

(** *** Public endpoints *)

Definition list_products (category : option string) : M (list Product) :=
  let filt : doc :=
    if truthy_opt category then {["category" := dump_opt category]} else ∅ in
  docs ← get_documents "product" filt;
  for_each (λ d, construct (Product_parse (delete "_id" d))) docs.

Definition get_business_details : M (option Business) :=
  docs ← get_documents "business" ∅;
  match docs with
  | [] => ret None
  | d :: _ => b ← construct (Business_parse (delete "_id" d)); ret (Some b)
  end.

(** *** Email sending *)

(** The message [send_order_email] builds: the headers and the body set on
    the [EmailMessage]. Setting a header raises [ValueError] when the value
    is not one [EmailMessage] takes; [send_order_email] below has the three
    checks, in the order of the assignments. *)
Definition order_message (smtp_user : option string)
    (order : InkOrder) (business : Business) : EmailMessage :=
  let body :=
    "New Ink Order Received" ++ nl ++ nl ++
    "Customer: " ++ customer_name order ++ nl ++
    "Email: " ++ customer_email order ++ nl ++
    "Phone: " ++ or_dash (customer_phone order) ++ nl ++ nl ++
    "Color: " ++ color order ++ nl ++
    "Quantity (L): " ++ float_str (quantity_liters order) ++ nl ++
    "Delivery Address: " ++ or_dash (delivery_address order) ++ nl ++ nl ++
    "Message:" ++ nl ++ or_dash (message order) ++ nl in
  {| Subject := "New Ink Order: " ++ color order ++ " - " ++
                float_str (quantity_liters order) ++ " L";
     From := if truthy_opt smtp_user then the smtp_user else email business;
     To := email business;
     content := body |}.

Definition send_order_email (order : InkOrder) (business : Business)
    : exn + list SmtpStep :=
  let smtp_host := getenv "SMTP_HOST" in
  match int_of_str (getenv_or "SMTP_PORT" "587") with
  | None => inl ValueError
  | Some smtp_port =>
      let smtp_user := getenv "SMTP_USER" in
      let smtp_pass := getenv "SMTP_PASSWORD" in
      let use_tls :=
        bool_decide (lower (getenv_or "SMTP_TLS" "true") ∈ ["1"; "true"; "yes"]) in
      if negb (truthy_opt smtp_host) || negb (truthy (email business)) then
        inl (RuntimeError
          "Email is not configured. Set SMTP_* env vars and business email.")
      else
        let msg := order_message smtp_user order business in
        if negb (header_ok (Subject msg)) then inl ValueError
        else if negb (header_ok (From msg)) then inl ValueError
        else if negb (header_ok (To msg)) then inl ValueError
        else
          inr ([smtp_connect (the smtp_host) smtp_port]
               ++ (if use_tls then [starttls] else [])
               ++ (if truthy_opt smtp_user && truthy_opt smtp_pass
                   then [login (the smtp_user) (the smtp_pass)] else [])
               ++ [send_message msg])%list
  end.

Definition create_ink_order (order : InkOrder) : M doc :=
  _ ← create_document "inkorder" (InkOrder_dump order);
  business_docs ← get_documents "business" ∅;
  match business_docs with
  | [] => ret {["status" := VStr "stored"; "email" := VStr "not_configured"]}
  | d :: _ =>
      business ← construct (Business_parse (delete "_id" d));
      _ ← try_except (add_task order business) (ret tt);
      ret {["status" := VStr "ok"]}
  end.

(** *** Admin endpoints *)

(** [d.get(k)] and [str(v)]. *)
Definition get (d : doc) (k : string) : value := default VNone (d !! k).

Definition str (v : value) : string :=
  match v with
  | VNone => "None"
  | VBool true => "True"
  | VBool false => "False"
  | VFloat x => float_str x
  | VStr s => s
  | VOid o => ObjectId_str o
  end.

Definition Unauthorized : exn := HTTPException 401 "Unauthorized".

Definition admin_list_products (x_admin_token : option string) : M (list doc) :=
  if differs x_admin_token ADMIN_TOKEN then raise Unauthorized else
  docs ← get_documents "product" ∅;
  for_each (λ d : doc, ret (delete "_id" (<["id" := VStr (str (get d "_id"))]> d)))
           docs.

Definition admin_create_product (product : Product)
    (x_admin_token : option string) : M doc :=
  if differs x_admin_token ADMIN_TOKEN then raise Unauthorized else
  inserted_id ← create_document "product" (Product_dump product);
  ret {["id" := VStr inserted_id]}.

Definition admin_update_product (product_id : string) (product : Product)
    (x_admin_token : option string) : M doc :=
  if differs x_admin_token ADMIN_TOKEN then raise Unauthorized else
  if negb (ObjectId_is_valid product_id) then
    raise (HTTPException 400 "Invalid ID")
  else
    matched_count ← update_one "product"
                      {["_id" := VOid (ObjectId_of_str product_id)]}
                      (Product_dump product);
    if (matched_count =? 0)%nat then raise (HTTPException 404 "Not found")
    else ret {["updated" := VBool true]}.

Definition admin_delete_product (product_id : string)
    (x_admin_token : option string) : M doc :=
  if differs x_admin_token ADMIN_TOKEN then raise Unauthorized else
  if negb (ObjectId_is_valid product_id) then
    raise (HTTPException 400 "Invalid ID")
  else
    deleted_count ← delete_one "product"
                      {["_id" := VOid (ObjectId_of_str product_id)]};
    if (deleted_count =? 0)%nat then raise (HTTPException 404 "Not found")
    else ret {["deleted" := VBool true]}.

Definition admin_get_business (x_admin_token : option string)
    : M (option doc) :=
  if differs x_admin_token ADMIN_TOKEN then raise Unauthorized else
  docs ← get_documents "business" ∅;
  match docs with
  | [] => ret None
  | d :: _ =>
      ret (Some (delete "_id" (<["id" := VStr (str (get d "_id"))]> d)))
  end.

Definition admin_upsert_business (business : Business)
    (x_admin_token : option string) : M doc :=
  if differs x_admin_token ADMIN_TOKEN then raise Unauthorized else
  docs ← get_documents "business" ∅;
  match docs with
  | [] =>
      _ ← create_document "business" (Business_dump business);
      ret {["created" := VBool true]}
  | d :: _ =>
      match d !! "_id" with
      | None => raise (KeyError "_id")
      | Some _id =>
          _ ← update_one "business" {["_id" := _id]} (Business_dump business);
          ret {["updated" := VBool true]}
      end
  end.

(** *** Requests

    A handler with a model parameter runs on the model built from the
    request body; when the body does not validate, the request fails with
    [RequestValidationError] (status 422) and the handler does not run. *)

Definition Unprocessable : exn := RequestValidationError.

Definition with_body {A R} (parse : doc → option A) (body : doc)
    (handler : A → M R) : M R :=
  match parse body with
  | Some a => handler a
  | None => raise Unprocessable
  end.

Definition POST_orders_ink (body : doc) : M doc :=
  with_body InkOrder_parse body create_ink_order.

Definition POST_admin_products (body : doc) (x_admin_token : option string)
    : M doc :=
  with_body Product_parse body (λ p, admin_create_product p x_admin_token).

Definition PUT_admin_products (product_id : string) (body : doc)
    (x_admin_token : option string) : M doc :=
  with_body Product_parse body
    (λ p, admin_update_product product_id p x_admin_token).

Definition PUT_admin_business (body : doc) (x_admin_token : option string)
    : M doc :=
  with_body Business_parse body (λ b, admin_upsert_business b x_admin_token).

End App.

(** ** Diagnostics ([test_database])

    [db] of the missing [database.py] is [None] when no database is
    configured; otherwise it has a name, and [list_collection_names()] returns
    the names or raises an exception, of which only the message is used. *)

Record Database := {
  db_name : string;
  list_collection_names : string + list string;
}.

(** The dict [test_database] returns; its keys are fixed. *)
Record Diagnostics := {
  backend : string;
  database : string;
  database_url : option string;
  database_name : option string;
  connection_status : string;
  collections : list string;
}.

(** A byte that continues a character of a UTF-8 string ([10xxxxxx]); every
    other byte starts one. *)
Definition continuation (c : ascii) : bool :=
  let n := nat_of_ascii c in (128 <=? n)%nat && (n <? 192)%nat.

(** [len(s)]: the number of characters, that is of bytes that start one. *)
Fixpoint char_count (s : string) : nat :=
  match s with
  | EmptyString => 0
  | String c s' =>
      if continuation c then char_count s' else S (char_count s')
  end.

(** [s[:n]]: the first [n] characters, each with its continuation bytes. *)
Fixpoint str_take (n : nat) (s : string) : string :=
  match s with
  | EmptyString => EmptyString
  | String c s' =>
      if continuation c then String c (str_take n s')
      else match n with
           | O => EmptyString
           | S k => String c (str_take k s')
           end
  end.

Section Diagnostics.
Context (environ : gmap string string).

Local Open Scope string_scope.

(** Neither [os.getenv] nor [db.name] raises, so the outer [except] of the
    source has nothing to catch. *)
Definition test_database (db : option Database) : Diagnostics :=
  let response :=
    {| backend := "✅ Running"; database := "❌ Not Available";
       database_url := None; database_name := None;
       connection_status := "Not Connected"; collections := [] |} in
  match db with
  | Some db =>
      let response :=
        {| backend := backend response; database := "✅ Available";
           database_url :=
             Some (if truthy_opt (getenv environ "DATABASE_URL")
                   then "✅ Set" else "❌ Not Set");
           database_name := Some (db_name db);
           connection_status := "Connected";
           collections := collections response |} in
      match list_collection_names db with
      | inr names =>
          {| backend := backend response;
             database := "✅ Connected & Working";
             database_url := database_url response;
             database_name := database_name response;
             connection_status := connection_status response;
             collections := take 10 names |}
      | inl e =>
          {| backend := backend response;
             database := "⚠️ Connected but Error: " ++ str_take 80 e;
             database_url := database_url response;
             database_name := database_name response;
             connection_status := connection_status response;
             collections := collections response |}
      end
  | None => response
  end.

End Diagnostics.

(** ** More vocabulary *)

(** From [w] to [w'] only the collection [c] may have changed. *)
Definition touches_only (c : string) (w w' : World) : Prop :=
  ∀ c', c' ≠ c → _collection w' c' = _collection w c'.

(** Nothing of the store changed. *)
Definition same_store (w w' : World) : Prop :=
  db w' = db w ∧ fresh w' = fresh w ∧ background_tasks w' = background_tasks w.

(** What [admin_list_products] and [admin_get_business] show of a stored
    document [d]: the identifier as a string under "id", no "_id", and every
    other key as stored. *)
Definition exposes `{Ext : Externals} (d e : doc) : Prop :=
  e !! "_id" = None
  ∧ e !! "id" = Some (VStr (str (get d "_id")))
  ∧ ∀ k, k ≠ "id" → k ≠ "_id" → e !! k = d !! k.

Definition Product_fields : list string :=
  ["title"; "description"; "price"; "category"; "in_stock"; "image_url"].

Definition Business_fields : list string :=
  ["name"; "email"; "phone"; "address_line1"; "address_line2"; "city";
   "state"; "postal_code"; "country"].

Definition InkOrder_fields : list string :=
  ["customer_name"; "customer_email"; "customer_phone"; "color";
   "quantity_liters"; "message"; "delivery_address"].

(** ** A stand-in for the libraries, to run the model on concrete requests *)

Module Sample.

Local Open Scope string_scope.

Fixpoint has_at (s : string) : bool :=
  match s with
  | EmptyString => false
  | String c s' => Ascii.eqb c "@"%char || has_at s'
  end.

Definition hex_digit (n : N) : ascii :=
  ascii_of_N (if (n <? 10)%N then 48 + n else 87 + n).

Fixpoint to_hex (digits : nat) (n : N) (acc : string) : string :=
  match digits with
  | O => acc
  | S k => to_hex k (n / 16)%N (String (hex_digit (n mod 16)%N) acc)
  end.

Definition hex_value (c : ascii) : option N :=
  let n := N_of_ascii c in
  if (48 <=? n)%N && (n <=? 57)%N then Some (n - 48)%N
  else if (97 <=? n)%N && (n <=? 102)%N then Some (n - 87)%N
  else if (65 <=? n)%N && (n <=? 70)%N then Some (n - 55)%N
  else None.

Fixpoint of_hex (s : string) (acc : N) : option N :=
  match s with
  | EmptyString => Some acc
  | String c s' =>
      match hex_value c with
      | Some v => of_hex s' (16 * acc + v)%N
      | None => None
      end
  end.

Fixpoint of_decimal (s : string) (acc : Z) : option Z :=
  match s with
  | EmptyString => Some acc
  | String c s' =>
      let n := Z.of_N (N_of_ascii c) in
      if (48 <=? n)%Z && (n <=? 57)%Z then of_decimal s' (10 * acc + (n - 48))%Z
      else None
  end.

(** The number of bytes of the line boundary of [str.splitlines] that [s]
    starts with, [0] when it starts with none: a line feed, a carriage
    return, the two together, a vertical tab, a form feed, a file, group or
    record separator, a next line (U+0085), a line or paragraph separator
    (U+2028, U+2029). *)
Definition line_boundary (s : string) : nat :=
  match s with
  | EmptyString => 0
  | String c s' =>
      let n := nat_of_ascii c in
      if (n =? 13)%nat then
        match s' with
        | String c' _ => if (nat_of_ascii c' =? 10)%nat then 2 else 1
        | EmptyString => 1
        end
      else if bool_decide (n ∈ [10; 11; 12; 28; 29; 30]) then 1
      else if (n =? 194)%nat then
        match s' with
        | String c' _ => if (nat_of_ascii c' =? 133)%nat then 2 else 0
        | EmptyString => 0
        end
      else if (n =? 226)%nat then
        match s' with
        | String c1 (String c2 _) =>
            if (nat_of_ascii c1 =? 128)%nat
               && bool_decide (nat_of_ascii c2 ∈ [168; 169])
            then 3 else 0
        | _ => 0
        end
      else 0
  end.

Fixpoint skip (n : nat) (s : string) : string :=
  match n, s with
  | S k, String _ s' => skip k s'
  | _, _ => s
  end.

(** [len(s.splitlines()) > 1]: a line boundary with something after it. *)
Fixpoint has_line_break (s : string) : bool :=
  match s with
  | EmptyString => false
  | String c s' =>
      (0 <? line_boundary s)%nat && truthy (skip (line_boundary s) s)
      || has_line_break s'
  end.

(** Addresses with an at sign pass unchanged; floats print for the values the
    examples use; as a float, the numeric strings "5" and "120" are read and
    a bool is 1 or 0; as a bool, the numbers 1 and 0 and the words of
    pydantic's conversion table are read; identifiers are 24 hexadecimal
    digits; a header value may not have a line boundary with something after
    it. *)
#[export] Instance externals : Externals := {|
  EmailStr s := if has_at s then Some s else None;
  float_str x :=
    if PrimFloat.eqb x 5 then "5.0"
    else if PrimFloat.eqb x 2.5 then "2.5"
    else if PrimFloat.eqb x 120 then "120.0"
    else "0.0";
  ObjectId_is_valid s :=
    (String.length s =? 24)%nat && bool_decide (is_Some (of_hex s 0));
  ObjectId_of_str s := default 0%N (of_hex s 0);
  ObjectId_str o := to_hex 24 o "";
  int_of_str s := if truthy s then of_decimal s 0 else None;
  lax_float v :=
    match v with
    | VStr "5" => Some 5%float
    | VStr "120" => Some 120%float
    | VBool b => Some (if b then 1%float else 0%float)
    | _ => None
    end;
  lax_bool v :=
    match v with
    | VFloat x =>
        if PrimFloat.eqb x 1 then Some true
        else if PrimFloat.eqb x 0 then Some false else None
    | VStr s =>
        if bool_decide (lower s ∈ ["1"; "on"; "t"; "true"; "y"; "yes"])
        then Some true
        else if bool_decide (lower s ∈ ["0"; "off"; "f"; "false"; "n"; "no"])
        then Some false else None
    | _ => None
    end;
  header_ok s := negb (has_line_break s);
|}.

(** An empty store. *)
Definition world0 : World :=
  {| db := ∅; fresh := 1%N; trace := []; background_tasks := [] |}.

(** The order of the spec's example, and the same order without a color
    text. *)
Definition order_body : doc :=
  {["customer_name" := VStr "A"; "customer_email" := VStr "a@x.com";
    "color" := VStr "Red"; "quantity_liters" := VFloat 5]}.

Definition blank_color_body : doc := <["color" := VStr ""]> order_body.

Definition order_A : InkOrder :=
  {| customer_name := "A"; customer_email := "a@x.com";
     customer_phone := None; color := "Red"; quantity_liters := 5;
     message := None; delivery_address := None |}.

(** A product, and the same product with an empty title. *)
Definition product_body : doc :=
  {["title" := VStr "Blue ink"; "price" := VFloat 120;
    "category" := VStr "ink"]}.

Definition blank_title_body : doc := <["title" := VStr ""]> product_body.

Definition blue_ink : Product :=
  {| title := "Blue ink"; description := None; price := 120;
     category := "ink"; in_stock := true; image_url := None |}.

Definition laxmi : Business :=
  {| name := "Laxmi Enterprise"; email := "owner@laxmi.example";
     phone := Some "111"; address_line1 := None; address_line2 := None;
     city := None; state := None; postal_code := None; country := None |}.

Definition laxmi_new_phone : Business :=
  {| name := "Laxmi Enterprise"; email := "owner@laxmi.example";
     phone := Some "222"; address_line1 := None; address_line2 := None;
     city := None; state := None; postal_code := None; country := None |}.

(** An environment with an admin secret and no SMTP settings, and one with
    an SMTP host. *)
Definition environ_secret : gmap string string := {["ADMIN_TOKEN" := "s3cret"]}.

Definition environ_smtp : gmap string string :=
  {["ADMIN_TOKEN" := "s3cret"; "SMTP_HOST" := "mail.example"]}.

(** A store with two products, of categories "ink" and "". *)
Definition plain_paper : Product :=
  {| title := "Paper"; description := None; price := 2.5; category := "";
     in_stock := true; image_url := None |}.

Definition world_with_products : World :=
  {| db := {["product" := [<["_id" := VOid 3%N]> (Product_dump blue_ink);
                           <["_id" := VOid 4%N]> (Product_dump plain_paper)]]};
     fresh := 5%N; trace := []; background_tasks := [] |}.

(** A store with one business profile. *)
Definition world_with_business : World :=
  {| db := {["business" := [<["_id" := VOid 7%N]> (Business_dump laxmi)]]};
     fresh := 8%N; trace := []; background_tasks := [] |}.

End Sample.

(** ** More requests and stores for the examples *)

Module MoreSamples.

Import Sample.


(** Only an SMTP host: every other setting takes its default. *)
Definition environ_host_only : gmap string string :=
  {["SMTP_HOST" := "mail.example"]}.

(** The two documents of [world_with_products]. *)
Definition blue_ink_doc : doc := <["_id" := VOid 3%N]> (Product_dump blue_ink).
Definition plain_paper_doc : doc :=
  <["_id" := VOid 4%N]> (Product_dump plain_paper).

Definition laxmi_doc : doc := <["_id" := VOid 7%N]> (Business_dump laxmi).

(** A stored profile without an email address. *)
Definition nameless_doc : doc := {["_id" := VOid 9%N; "name" := VStr "Laxmi"]}.

Definition world_with_bad_business : World :=
  {| db := {["business" := [nameless_doc]]};
     fresh := 10%N; trace := []; background_tasks := [] |}.


(** An order whose color has a line break in it. *)
Definition order_two_lines : InkOrder :=
  {| customer_name := "A"; customer_email := "a@x.com";
     customer_phone := None; color := "Red" +:+ nl +:+ "Blue";
     quantity_liters := 5; message := None; delivery_address := None |}.

(** The bodies of the examples with numbers written as strings. *)
Definition order_body_text_quantity : doc :=
  <["quantity_liters" := VStr "5"]> order_body.

Definition product_body_text_price : doc :=
  <["price" := VStr "120"]> (<["in_stock" := VFloat 1]> product_body).

(** A database whose listing fails. *)
Definition broken_db : Database :=
  {| db_name := "laxmi"; list_collection_names := inl "timed out" |}.

End MoreSamples.

(** ** Vocabulary of the properties *)

Section Vocabulary.
Context `{Ext : Externals}.

(** Every stored business profile builds a [Business]. *)
Definition business_docs_valid (w : World) : Prop :=
  ∀ d, d ∈ _collection w "business" → is_Some (Business_parse (delete "_id" d)).

Definition stored_not_configured : doc :=
  {["status" := VStr "stored"; "email" := VStr "not_configured"]}.

(** The order as the store holds it after [create_ink_order] in [w]. *)
Definition stored_order (order : InkOrder) (w : World) : doc :=
  <["_id" := VOid (fresh w)]> (InkOrder_dump order).


(** The business collection is the singleton the API maintains: empty, or
    one profile under a store identifier. *)
Definition at_most_one_business (w : World) : Prop :=
  _collection w "business" = []
  ∨ ∃ d o, _collection w "business" = [d] ∧ d !! "_id" = Some (VOid o).

Definition Created : doc := {["created" := VBool true]}.
Definition Updated : doc := {["updated" := VBool true]}.

End Vocabulary.


(** An order, a product, with one field replaced. *)
Definition set_color (o : InkOrder) (c : string) : InkOrder :=
  {| customer_name := customer_name o; customer_email := customer_email o;
     customer_phone := customer_phone o; color := c;
     quantity_liters := quantity_liters o; message := message o;
     delivery_address := delivery_address o |}.

Definition set_title (p : Product) (t : string) : Product :=
  {| title := t; description := description p; price := price p;
     category := category p; in_stock := in_stock p;
     image_url := image_url p |}.


(** * Properties *)

(** ** The store primitives *)

Lemma matches_empty (d : doc) : matches ∅ d = true.
Proof. unfold matches. by rewrite map_to_list_empty. Qed.

Lemma matches_singleton (k : string) (v : value) (d : doc) :
  matches {[k := v]} d =
  match d !! k with Some v' => value_eqb v v' | None => false end.
Proof.
  unfold matches. rewrite map_to_list_singleton. simpl.
  destruct (d !! k); by rewrite ?andb_true_r.
Qed.

Lemma filter_matches_empty (l : list doc) :
  filter (λ d, matches ∅ d = true) l = l.
Proof.
  induction l as [|d l IH]; [done|].
  rewrite filter_cons_True by apply matches_empty. by rewrite IH.
Qed.

Lemma differs_false (x : option string) (t : string) :
  differs x t = false ↔ x = Some t.
Proof.
  destruct x as [s|]; simpl; [|done].
  rewrite negb_false_iff, String.eqb_eq. naive_solver.
Qed.

Lemma differs_true (x : option string) (t : string) :
  differs x t = true ↔ x ≠ Some t.
Proof.
  rewrite <- not_false_iff_true, differs_false. done.
Qed.

(** ** The admin gate *)

Section AdminGate.
Context `{Ext : Externals} (environ : gmap string string).

(** C3. Every admin operation (product list, create, update, delete;
    business read and upsert), called with a token that is absent or is not
    the configured secret, raises the authorization failure (401) and leaves
    the world as it was: the store, the identifier counter and the trace
    are unchanged, so the store was never reached. *)
Theorem admin_gate_denies (x_admin_token : option string) (w : World) :
  x_admin_token ≠ Some (ADMIN_TOKEN environ) →
  admin_list_products environ x_admin_token w = (inl Unauthorized, w)
  ∧ (∀ p, admin_create_product environ p x_admin_token w = (inl Unauthorized, w))
  ∧ (∀ id p, admin_update_product environ id p x_admin_token w
             = (inl Unauthorized, w))
  ∧ (∀ id, admin_delete_product environ id x_admin_token w
           = (inl Unauthorized, w))
  ∧ admin_get_business environ x_admin_token w = (inl Unauthorized, w)
  ∧ (∀ b, admin_upsert_business environ b x_admin_token w
          = (inl Unauthorized, w)).
Proof.
  intros Hne%differs_true.
  unfold admin_list_products, admin_create_product, admin_update_product,
    admin_delete_product, admin_get_business, admin_upsert_business.
  rewrite Hne. repeat split.
Qed.

(** The same on requests: FastAPI validates the body before the handler
    runs, so a denied request with a body fails with 401 when the body
    validates and with the validation error otherwise; either way the world
    is as before. *)
Lemma admin_gate_denies_requests (x_admin_token : option string)
    (body : doc) (product_id : string) (w : World) :
  x_admin_token ≠ Some (ADMIN_TOKEN environ) →
  (POST_admin_products environ body x_admin_token w
   = (match Product_parse body with
        | Some _ => inl Unauthorized
        | None => inl Unprocessable
        end, w))
  ∧ (PUT_admin_products environ product_id body x_admin_token w
     = (match Product_parse body with
        | Some _ => inl Unauthorized
        | None => inl Unprocessable
        end, w))
  ∧ (PUT_admin_business environ body x_admin_token w
     = (match Business_parse body with
        | Some _ => inl Unauthorized
        | None => inl Unprocessable
        end, w)).
Proof.
  intros Hne%differs_true.
  unfold POST_admin_products, PUT_admin_products, PUT_admin_business, with_body,
    admin_create_product, admin_update_product, admin_upsert_business.
  rewrite Hne. by destruct (Product_parse body), (Business_parse body).
Qed.

End AdminGate.

(** ** Order intake *)

Lemma _collection_insert_eq (w w' : World) (c : string) (l : list doc) :
  db w' = <[c := l]> (db w) → _collection w' c = l.
Proof. unfold _collection. intros ->. by rewrite lookup_insert_eq. Qed.

Lemma _collection_insert_ne (w w' : World) (c c' : string) (l : list doc) :
  db w' = <[c := l]> (db w) → c ≠ c' → _collection w' c' = _collection w c'.
Proof. unfold _collection. intros -> ?. by rewrite lookup_insert_ne. Qed.

Section Orders.
Context `{Ext : Externals}.



(** C4. With no business profile stored, [create_ink_order] answers that the
    order is stored and notification is not configured, the order is in the
    [inkorder] collection, and no task is scheduled: the list of background
    tasks is unchanged and the trace holds no [OpAddTask]. *)
Theorem create_ink_order_without_business (order : InkOrder) (w : World) :
  _collection w "business" = [] →
  ∃ w',
    create_ink_order order w = (inr stored_not_configured, w')
    ∧ _collection w' "inkorder"
      = _collection w "inkorder" ++ [stored_order order w]
    ∧ background_tasks w' = background_tasks w
    ∧ trace w'
      = trace w ++ [OpInsert "inkorder" (stored_order order w);
                    OpFind "business" ∅].
Proof.
  intros Hnone.
  unfold create_ink_order, mbind, M_bind, create_document, get_documents.
  cbn [db fresh trace background_tasks].
  rewrite filter_matches_empty.
  set (w1 := {| db := <["inkorder" := _ ]> (db w) |}).
  assert (Hb : _collection w1 "business" = [])
    by by rewrite (_collection_insert_ne w w1 "inkorder" "business" _ eq_refl).
  rewrite Hb. eexists. cbn. split_and!; eauto.
  - by apply (_collection_insert_eq w w1 _ _ eq_refl).
  - by rewrite <- app_assoc.
Qed.

End Orders.

(** ** The business profile *)

Lemma update_first_head (filt fields d : doc) (l : list doc) :
  matches filt d = true →
  update_first filt fields (d :: l) = (1, (fields ∪ d) :: l).
Proof. intros H. simpl. by rewrite H. Qed.

Lemma matches_id (o : ObjectId) (d : doc) :
  matches {["_id" := VOid o]} d = true ↔ d !! "_id" = Some (VOid o).
Proof.
  rewrite matches_singleton.
  destruct (d !! "_id") as [[| | | |o']|]; simpl; try by split.
  rewrite N.eqb_eq. naive_solver.
Qed.

Lemma Business_dump_no_id (b : Business) : Business_dump b !! "_id" = None.
Proof. reflexivity. Qed.

Lemma stored_field (b d : doc) (k : string) (v : value) :
  k ≠ "_id" → b !! k = Some v → delete "_id" (b ∪ d) !! k = Some v.
Proof.
  intros Hk Hv. rewrite lookup_delete_ne by done. by apply lookup_union_Some_l.
Qed.

(** A stored profile reads back as the payload that was last set on it, when
    the payload's address is one [EmailStr] returns unchanged. *)
Lemma Business_parse_stored `{Ext : Externals} (b : Business) (d : doc) :
  EmailStr (email b) = Some (email b) →
  Business_parse (delete "_id" (Business_dump b ∪ d)) = Some b.
Proof.
  intros Hmail. destruct b as [n e p a1 a2 ci st pc co]. simpl in Hmail.
  unfold Business_parse, field_email, field_str, field_opt_str.
  repeat match goal with
  | |- context [delete "_id" (?m ∪ d) !! ?k] =>
      erewrite (stored_field m d k) by first [reflexivity | done]
  end.
  simpl. rewrite Hmail. simpl.
  by destruct p, a1, a2, ci, st, pc, co.
Qed.

Lemma update_first_Forall (P : doc → Prop) (filt fields : doc) (l : list doc) :
  Forall P l → (∀ d, P d → P (fields ∪ d)) →
  Forall P (update_first filt fields l).2.
Proof.
  intros Hl Hset. induction Hl as [|d l Hd Hl IH]; [done|].
  simpl. destruct (matches filt d); simpl; constructor; auto.
Qed.

Section BusinessProfile.
Context `{Ext : Externals} (environ : gmap string string).

(** The only handler that writes business profiles keeps every stored
    profile one that builds a [Business], for a payload whose email address
    [EmailStr] returns unchanged. *)
Lemma upsert_keeps_business_valid (b : Business) (tok : option string)
    (w : World) :
  EmailStr (email b) = Some (email b) →
  business_docs_valid w →
  business_docs_valid (admin_upsert_business environ b tok w).2.
Proof.
  intros Hmail Hvalid. unfold admin_upsert_business.
  destruct (differs tok _); [done|].
  unfold business_docs_valid, mbind, M_bind, get_documents, create_document,
    update_one, ret, raise, _collection in *.
  cbn [db fresh trace background_tasks].
  rewrite filter_matches_empty.
  destruct (default [] (db w !! "business")) as [|d l] eqn:Hdocs.
  - cbn [snd db fresh trace background_tasks].
    rewrite lookup_insert_eq, Hdocs. cbv [default from_option id app].
    intros d' ->%list_elem_of_singleton.
    rewrite delete_insert_eq, <- (right_id_L ∅ (∪) (Business_dump b)).
    by rewrite Business_parse_stored.
  - destruct (d !! "_id") as [_id|];
      cbn [snd db fresh trace background_tasks]; [|by rewrite Hdocs].
    rewrite lookup_insert_eq, Hdocs. cbv [default from_option id].
    apply Forall_forall, update_first_Forall.
    + by apply Forall_forall.
    + intros d' _. by rewrite Business_parse_stored.
Qed.

Lemma upsert_creates (b : Business) (w : World) :
  _collection w "business" = [] →
  ∃ w', admin_upsert_business environ b (Some (ADMIN_TOKEN environ)) w
        = (inr Created, w')
        ∧ _collection w' "business"
          = [<["_id" := VOid (fresh w)]> (Business_dump b)].
Proof.
  intros Hnone. unfold admin_upsert_business.
  rewrite (proj2 (differs_false _ _) eq_refl).
  unfold mbind, M_bind, get_documents, create_document, _collection in *.
  cbn [db fresh trace background_tasks].
  rewrite filter_matches_empty, Hnone. cbn [db fresh trace background_tasks].
  rewrite Hnone. eexists. split; [reflexivity|].
  cbn [db]. by rewrite lookup_insert_eq.
Qed.

Lemma upsert_updates (b : Business) (w : World) (d : doc) (l : list doc)
    (o : ObjectId) :
  _collection w "business" = d :: l →
  d !! "_id" = Some (VOid o) →
  ∃ w', admin_upsert_business environ b (Some (ADMIN_TOKEN environ)) w
        = (inr Updated, w')
        ∧ _collection w' "business" = (Business_dump b ∪ d) :: l
        ∧ (Business_dump b ∪ d) !! "_id" = Some (VOid o).
Proof.
  intros Hdocs Hid. unfold admin_upsert_business.
  rewrite (proj2 (differs_false _ _) eq_refl).
  unfold mbind, M_bind, get_documents, update_one, _collection in *.
  cbn [db fresh trace background_tasks].
  rewrite filter_matches_empty, Hdocs, Hid.
  cbn [db fresh trace background_tasks].
  rewrite Hdocs, update_first_head by by apply matches_id.
  eexists. split; [reflexivity|]. cbn [db fst snd]. split.
  - by rewrite lookup_insert_eq.
  - by rewrite lookup_union_r by apply Business_dump_no_id.
Qed.

Lemma get_business_details_reads (b : Business) (d : doc) (l : list doc)
    (w : World) :
  _collection w "business" = (Business_dump b ∪ d) :: l →
  EmailStr (email b) = Some (email b) →
  (get_business_details w).1 = inr (Some b).
Proof.
  intros Hdocs Hmail.
  unfold get_business_details, mbind, M_bind, get_documents.
  rewrite filter_matches_empty, Hdocs, Business_parse_stored by done.
  reflexivity.
Qed.

(** C2. [admin_upsert_business] with the configured token: when no profile
    is stored it inserts one and answers [created]; when one is stored it
    sets the payload's fields on that same document, found by its [_id],
    and answers [updated]. Hence after two calls in a row, from a store with
    at most one profile, the collection holds exactly one document, and every
    field of the second payload is stored in it with the payload's value;
    [get_business_details] then returns the second payload (for an email
    address that [EmailStr] returns unchanged, as it does its own results). *)
Theorem upsert_business_twice (b1 b2 : Business) (w : World) :
  at_most_one_business w →
  ∃ r1 w1 w2 d1 d2,
    admin_upsert_business environ b1 (Some (ADMIN_TOKEN environ)) w
      = (inr r1, w1)
    ∧ _collection w1 "business" = [d1]
    ∧ (_collection w "business" = [] →
       r1 = Created ∧ d1 = <["_id" := VOid (fresh w)]> (Business_dump b1))
    ∧ (∀ d0, _collection w "business" = [d0] →
       r1 = Updated ∧ d1 = Business_dump b1 ∪ d0 ∧ d1 !! "_id" = d0 !! "_id")
    ∧ admin_upsert_business environ b2 (Some (ADMIN_TOKEN environ)) w1
      = (inr Updated, w2)
    ∧ _collection w2 "business" = [d2]
    ∧ d2 = Business_dump b2 ∪ d1
    ∧ d2 !! "_id" = d1 !! "_id"
    ∧ Business_dump b2 ⊆ d2
    ∧ (EmailStr (email b2) = Some (email b2) →
       (get_business_details w2).1 = inr (Some b2)).
Proof.
  intros [Hnone | (d0 & o & Hone & Hid)].
  - destruct (upsert_creates b1 w Hnone) as (w1 & Hr1 & Hc1).
    destruct (upsert_updates b2 w1 _ [] (fresh w) Hc1) as (w2 & Hr2 & Hc2 & Hid2);
      [by rewrite lookup_insert_eq|].
    exists Created, w1, w2, (<["_id" := VOid (fresh w)]> (Business_dump b1)),
      (Business_dump b2 ∪ <["_id" := VOid (fresh w)]> (Business_dump b1)).
    split_and!.
    + exact Hr1.
    + exact Hc1.
    + intros _. by split.
    + intros d0 Hd0. congruence.
    + exact Hr2.
    + exact Hc2.
    + reflexivity.
    + by rewrite Hid2, lookup_insert_eq.
    + apply map_union_subseteq_l.
    + intros Hmail. by apply (get_business_details_reads _ _ _ _ Hc2).
  - destruct (upsert_updates b1 w d0 [] o Hone Hid) as (w1 & Hr1 & Hc1 & Hid1).
    destruct (upsert_updates b2 w1 _ [] o Hc1 Hid1) as (w2 & Hr2 & Hc2 & Hid2).
    exists Updated, w1, w2, (Business_dump b1 ∪ d0),
      (Business_dump b2 ∪ (Business_dump b1 ∪ d0)).
    split_and!.
    + exact Hr1.
    + exact Hc1.
    + intros Hnone. congruence.
    + intros d0' Hd0'. assert (d0' = d0) as -> by congruence.
      split_and!; [reflexivity..|]. by rewrite Hid1.
    + exact Hr2.
    + exact Hc2.
    + reflexivity.
    + by rewrite Hid2.
    + apply map_union_subseteq_l.
    + intros Hmail. by apply (get_business_details_reads _ _ _ _ Hc2).
Qed.

End BusinessProfile.

(** ** Product identifiers *)

Lemma update_first_none (filt fields : doc) (l : list doc) :
  (∀ d, d ∈ l → matches filt d = false) →
  update_first filt fields l = (0, l).
Proof.
  induction l as [|d l IH]; intros Hno; [done|].
  simpl. rewrite Hno by by left.
  rewrite IH; [done|]. intros d' Hd'. apply Hno. by right.
Qed.

Lemma delete_first_none (filt : doc) (l : list doc) :
  (∀ d, d ∈ l → matches filt d = false) →
  delete_first filt l = (0, l).
Proof.
  induction l as [|d l IH]; intros Hno; [done|].
  simpl. rewrite Hno by by left.
  rewrite IH; [done|]. intros d' Hd'. apply Hno. by right.
Qed.

Lemma _collection_insert_same (w w' : World) (c : string) :
  db w' = <[c := _collection w c]> (db w) →
  ∀ c', _collection w' c' = _collection w c'.
Proof.
  intros Hdb c'. destruct (decide (c = c')) as [<-|Hne].
  - apply (_collection_insert_eq w _ _ _ Hdb).
  - apply (_collection_insert_ne w _ _ _ _ Hdb Hne).
Qed.

Section ProductIds.
Context `{Ext : Externals} (environ : gmap string string).

(** C5. For an authorized caller: when the identifier is not well formed,
    [admin_update_product] and [admin_delete_product] raise 400 "Invalid ID"
    and the world is as before (nothing reached the store); when it is well
    formed and no stored product has it, the store is asked once
    ([update_one], [delete_one]), answers a count of zero, and the handlers
    raise 404 "Not found", every collection being as before. *)
Theorem product_id_invalid_or_absent (product_id : string) (product : Product)
    (x_admin_token : option string) (w : World) :
  x_admin_token = Some (ADMIN_TOKEN environ) →
  let filt : doc := {["_id" := VOid (ObjectId_of_str product_id)]} in
  (ObjectId_is_valid product_id = false →
     admin_update_product environ product_id product x_admin_token w
       = (inl (HTTPException 400 "Invalid ID"), w)
     ∧ admin_delete_product environ product_id x_admin_token w
       = (inl (HTTPException 400 "Invalid ID"), w))
  ∧ (ObjectId_is_valid product_id = true →
     (∀ d, d ∈ _collection w "product" →
           d !! "_id" ≠ Some (VOid (ObjectId_of_str product_id))) →
     ∃ wu wd,
       update_one "product" filt (Product_dump product) w = (inr 0, wu)
       ∧ admin_update_product environ product_id product x_admin_token w
         = (inl (HTTPException 404 "Not found"), wu)
       ∧ trace wu
         = trace w ++ [OpUpdateOne "product" filt (Product_dump product)]
       ∧ (∀ c, _collection wu c = _collection w c)
       ∧ delete_one "product" filt w = (inr 0, wd)
       ∧ admin_delete_product environ product_id x_admin_token w
         = (inl (HTTPException 404 "Not found"), wd)
       ∧ trace wd = trace w ++ [OpDeleteOne "product" filt]
       ∧ (∀ c, _collection wd c = _collection w c)).
Proof.
  intros ->. cbv zeta. unfold admin_update_product, admin_delete_product.
  rewrite (proj2 (differs_false _ _) eq_refl). split.
  - intros ->. by split.
  - intros -> Habsent. cbn [negb].
    assert (Hno : ∀ d, d ∈ _collection w "product" →
              matches {["_id" := VOid (ObjectId_of_str product_id)]} d = false).
    { intros d Hd. apply not_true_is_false. rewrite matches_id. by apply Habsent. }
    unfold mbind, M_bind, update_one, delete_one.
    rewrite (update_first_none _ _ _ Hno), (delete_first_none _ _ Hno).
    cbn [fst snd Nat.eqb].
    eexists _, _. split_and!; try reflexivity.
    + by apply (_collection_insert_same w _ "product").
    + by apply (_collection_insert_same w _ "product").
Qed.

End ProductIds.

(** ** The default secret *)

Lemma for_each_ret {A B} (g : A → B) (l : list A) (w : World) :
  for_each (λ a, ret (g a)) l w = (inr (g <$> l), w).
Proof.
  induction l as [|a l IH]; [done|].
  simpl. unfold mbind, M_bind, ret in *. by rewrite IH.
Qed.

Lemma for_each_construct {A B} (f : A → option B) (l : list A) (w : World) :
  for_each (λ a, construct (f a)) l w
  = (match mapM f l with Some bs => inr bs | None => inl ValidationError end, w).
Proof.
  induction l as [|a l IH]; [done|].
  simpl. unfold mbind at 1 2. unfold M_bind, construct, ret, raise in *.
  destruct (f a) as [b|]; simpl; [|done].
  rewrite IH. by destruct (mapM f l).
Qed.

Section DefaultSecret.
Context `{Ext : Externals} (environ : gmap string string).


End DefaultSecret.

(** ** The public catalogue *)

Section Catalogue.
Context `{Ext : Externals}.

(** C10. In [list_products] a category equal to the empty string is no filter
    at all: the call is the call without a category. The store is queried
    with the empty filter, and the answer is built from every document of the
    [product] collection, whatever its category. *)
Theorem list_products_empty_category (w : World) :
  list_products (Some "") w = list_products None w
  ∧ ∃ w',
      list_products (Some "") w
      = (match mapM (λ d, Product_parse (delete "_id" d))
                    (_collection w "product") with
         | Some ps => inr ps
         | None => inl ValidationError
         end, w')
      ∧ trace w' = trace w ++ [OpFind "product" ∅]
      ∧ db w' = db w.
Proof.
  split; [done|].
  unfold list_products. cbn [truthy_opt truthy].
  unfold mbind, M_bind, get_documents.
  rewrite filter_matches_empty, for_each_construct.
  eexists. by split_and!.
Qed.

End Catalogue.

(** ** The notification message *)



Section Notification.
Context `{Ext : Externals} (environ : gmap string string).

Local Open Scope string_scope.

Lemma send_order_email_sends (order : InkOrder) (business : Business)
    (steps : list SmtpStep) :
  send_order_email environ order business = inr steps →
  last steps
  = Some (send_message
            (order_message (getenv environ "SMTP_USER") order business)).
Proof.
  unfold send_order_email.
  destruct (int_of_str _) as [port|]; [|done].
  destruct (negb _ || negb _); [done|].
  destruct (negb (header_ok (Subject _))); [done|].
  destruct (negb (header_ok (From _))); [done|].
  destruct (negb (header_ok (To _))); [done|].
  intros [= <-]. cbn [app].
  destruct (bool_decide _), (truthy_opt _ && truthy_opt _); reflexivity.
Qed.


End Notification.

(** ** Validation of the open string fields *)

Lemma create_ink_order_appends `{Ext : Externals} (order : InkOrder) (w : World) :
  ∃ r w',
    create_ink_order order w = (r, w')
    ∧ _collection w' "inkorder"
      = _collection w "inkorder" ++ [stored_order order w].
Proof.
  unfold create_ink_order, mbind, M_bind, create_document, get_documents.
  cbn [db fresh trace background_tasks].
  set (w1 := {| db := <["inkorder" := _ ]> (db w) |}).
  assert (Ho : _collection w1 "inkorder"
               = _collection w "inkorder" ++ [stored_order order w])
    by by apply (_collection_insert_eq w w1 _ _ eq_refl).
  destruct (filter _ _) as [|d l]; [by eexists _, _|].
  destruct (Business_parse _) as [b|]; by eexists _, _.
Qed.

Lemma InkOrder_parse_set_color `{Ext : Externals} (body : doc)
    (o : InkOrder) (c : string) :
  InkOrder_parse body = Some o →
  InkOrder_parse (<["color" := VStr c]> body) = Some (set_color o c).
Proof.
  unfold InkOrder_parse, field_email, field_str, field_opt_str, field_float.
  rewrite lookup_insert_eq, !lookup_insert_ne by done.
  intros H. simplify_option_eq. done.
Qed.

Lemma InkOrder_parse_needs_color `{Ext : Externals} (body : doc) :
  InkOrder_parse (delete "color" body) = None.
Proof.
  assert (Hc : field_str (delete "color" body) "color" = None)
    by (unfold field_str; by rewrite lookup_delete_eq).
  unfold InkOrder_parse. rewrite Hc. clear Hc.
  destruct (field_str _ "customer_name"); simpl; [|done].
  destruct (field_email _ _); simpl; [|done].
  by destruct (field_opt_str _ _).
Qed.

Lemma Product_parse_set_title `{Ext : Externals} (body : doc) (p : Product) (t : string) :
  Product_parse body = Some p →
  Product_parse (<["title" := VStr t]> body) = Some (set_title p t).
Proof.
  unfold Product_parse, field_str, field_opt_str, field_float, field_bool.
  rewrite lookup_insert_eq, !lookup_insert_ne by done.
  intros H. simplify_option_eq. done.
Qed.

Lemma Product_parse_needs_title `{Ext : Externals} (body : doc) :
  Product_parse (delete "title" body) = None.
Proof.
  assert (Ht : field_str (delete "title" body) "title" = None)
    by (unfold field_str; by rewrite lookup_delete_eq).
  unfold Product_parse. by rewrite Ht.
Qed.

Section OpenStrings.
Context `{Ext : Externals} (environ : gmap string string).

(** C6, as the code has it. [InkOrder] takes any string for [color], the
    empty string included: a body that validates still validates when its
    color is replaced by any string, the request runs [create_ink_order] on
    that order, and the order is appended to the [inkorder] collection. Only
    a body without a color is answered 422, the world being as before. *)
Theorem ink_order_color_any_string (body : doc) (o : InkOrder) (c : string)
    (w : World) :
  InkOrder_parse body = Some o →
  InkOrder_parse (<["color" := VStr c]> body) = Some (set_color o c)
  ∧ POST_orders_ink (<["color" := VStr c]> body) w
    = create_ink_order (set_color o c) w
  ∧ (∃ r w',
       POST_orders_ink (<["color" := VStr c]> body) w = (r, w')
       ∧ _collection w' "inkorder"
         = _collection w "inkorder" ++ [stored_order (set_color o c) w])
  ∧ POST_orders_ink (delete "color" body) w = (inl Unprocessable, w).
Proof.
  intros Hvalid. pose proof (InkOrder_parse_set_color body o c Hvalid) as Hc.
  unfold POST_orders_ink, with_body.
  rewrite Hc, InkOrder_parse_needs_color.
  split_and!; try done. apply create_ink_order_appends.
Qed.

(** C7, as the code has it. [Product] takes any string for [title], the empty
    string included: a body that validates still validates when its title is
    replaced by any string; for an authorized caller the create request then
    inserts the product with that title and returns its identifier, and the
    update request runs [admin_update_product] on it, which sets that title
    on the stored product when the first product has the identifier. Only a
    body without a title is answered 422, the world being as before. *)
Theorem product_title_any_string (body : doc) (p : Product) (t : string)
    (product_id : string) (w : World) :
  Product_parse body = Some p →
  Product_parse (<["title" := VStr t]> body) = Some (set_title p t)
  ∧ (∃ w',
       POST_admin_products environ (<["title" := VStr t]> body)
         (Some (ADMIN_TOKEN environ)) w
       = (inr {["id" := VStr (ObjectId_str (fresh w))]}, w')
       ∧ _collection w' "product"
         = _collection w "product"
           ++ [<["_id" := VOid (fresh w)]> (Product_dump (set_title p t))])
  ∧ PUT_admin_products environ product_id (<["title" := VStr t]> body)
      (Some (ADMIN_TOKEN environ)) w
    = admin_update_product environ product_id (set_title p t)
        (Some (ADMIN_TOKEN environ)) w
  ∧ (∀ d l,
       ObjectId_is_valid product_id = true →
       _collection w "product" = d :: l →
       d !! "_id" = Some (VOid (ObjectId_of_str product_id)) →
       ∃ w',
         PUT_admin_products environ product_id (<["title" := VStr t]> body)
           (Some (ADMIN_TOKEN environ)) w
         = (inr {["updated" := VBool true]}, w')
         ∧ _collection w' "product"
           = (Product_dump (set_title p t) ∪ d) :: l)
  ∧ POST_admin_products environ (delete "title" body)
      (Some (ADMIN_TOKEN environ)) w
    = (inl Unprocessable, w)
  ∧ PUT_admin_products environ product_id (delete "title" body)
      (Some (ADMIN_TOKEN environ)) w
    = (inl Unprocessable, w).
Proof.
  intros Hvalid. pose proof (Product_parse_set_title body p t Hvalid) as Ht.
  unfold POST_admin_products, PUT_admin_products, with_body.
  rewrite Ht, Product_parse_needs_title.
  unfold admin_create_product, admin_update_product.
  rewrite (proj2 (differs_false _ _) eq_refl).
  split_and!; try done.
  - unfold mbind, M_bind, create_document. eexists. split; [reflexivity|].
    by apply (_collection_insert_eq w _ "product").
  - intros d l -> Hdocs Hid. cbn [negb].
    unfold mbind, M_bind, update_one.
    rewrite Hdocs, update_first_head by by apply matches_id.
    cbn [fst snd Nat.eqb]. eexists. split; [reflexivity|].
    by apply (_collection_insert_eq w _ "product").
Qed.

End OpenStrings.

(** * Further properties *)

(** ** The token check *)

Section TokenCheck.
Context `{Ext : Externals} (environ : gmap string string).

(** X1. [verify_admin] lets a token through exactly when it is the configured
    secret and is not the empty string; every other token, an absent one
    included, raises 401; in both cases the world is as before. *)
Theorem verify_admin_accepts_iff (x_admin_token : option string) (w : World) :
  (verify_admin environ x_admin_token w = (inr tt, w)
   ∨ verify_admin environ x_admin_token w = (inl Unauthorized, w))
  ∧ (verify_admin environ x_admin_token w = (inr tt, w)
     ↔ x_admin_token = Some (ADMIN_TOKEN environ)
       ∧ ADMIN_TOKEN environ ≠ EmptyString).
Proof.
  unfold verify_admin.
  destruct x_admin_token as [t|]; cbn [truthy_opt negb orb].
  - destruct t as [|c t]; cbn [truthy negb orb].
    + split; [by right|]. split; [done|]. intros [[= <-] Hne]. done.
    + destruct (differs _ _) eqn:Hd.
      * split; [by right|]. split; [done|].
        intros [Heq _]. apply differs_false in Heq. congruence.
      * split; [by left|]. split; [|done]. intros _.
        apply differs_false in Hd. split; [done|].
        injection Hd as <-. done.
  - split; [by right|]. split; [done|]. by intros [? _].
Qed.


End TokenCheck.

(** ** What a handler may change *)

Lemma touches_only_refl (c : string) (w w' : World) :
  db w' = db w → touches_only c w w'.
Proof. intros Hdb c' _. unfold _collection. by rewrite Hdb. Qed.

Lemma touches_only_insert (c : string) (l : list doc) (w w' : World) :
  db w' = <[c := l]> (db w) → touches_only c w w'.
Proof.
  intros Hdb c' Hne. unfold _collection. by rewrite Hdb, lookup_insert_ne.
Qed.

Lemma length_update_first (filt fields : doc) (l : list doc) :
  length (update_first filt fields l).2 = length l.
Proof.
  induction l as [|d l IH]; [done|].
  simpl. destruct (matches filt d); simpl; by rewrite ?IH.
Qed.

Section Footprint.
Context `{Ext : Externals} (environ : gmap string string).

(** X3. The four reading handlers ([list_products], [get_business_details],
    [admin_list_products], [admin_get_business]) never change the store,
    whatever they are given and whether they return or raise: collections,
    identifier counter and background tasks are as before. *)
Theorem reading_handlers_keep_store (category tok : option string) (w : World) :
  same_store w (list_products category w).2
  ∧ same_store w (get_business_details w).2
  ∧ same_store w (admin_list_products environ tok w).2
  ∧ same_store w (admin_get_business environ tok w).2.
Proof.
  unfold same_store. split; [|split; [|split]].
  - unfold list_products, mbind, M_bind, get_documents.
    by rewrite for_each_construct.
  - unfold get_business_details, mbind, M_bind, get_documents.
    destruct (filter _ _) as [|d l]; [done|].
    unfold construct. by destruct (Business_parse _).
  - unfold admin_list_products. destruct (differs _ _); [done|].
    unfold mbind, M_bind, get_documents. by rewrite for_each_ret.
  - unfold admin_get_business. destruct (differs _ _); [done|].
    unfold mbind, M_bind, get_documents. by destruct (filter _ _).
Qed.

(** X4. Each writing handler changes one collection only, whatever its
    outcome: [create_ink_order] only [inkorder]; the product handlers only
    [product]; [admin_upsert_business] only [business]. In particular no
    admin handler changes or removes a stored order. *)
Theorem writing_handlers_touch_one_collection (order : InkOrder) (p : Product)
    (b : Business) (id : string) (tok : option string) (w : World) :
  touches_only "inkorder" w (create_ink_order order w).2
  ∧ touches_only "product" w (admin_create_product environ p tok w).2
  ∧ touches_only "product" w (admin_update_product environ id p tok w).2
  ∧ touches_only "product" w (admin_delete_product environ id tok w).2
  ∧ touches_only "business" w (admin_upsert_business environ b tok w).2.
Proof.
  unfold create_ink_order, admin_create_product, admin_update_product,
    admin_delete_product, admin_upsert_business.
  unfold mbind, M_bind, get_documents, create_document, update_one, delete_one,
    try_except, add_task, construct, ret, raise.
  cbn [db fresh trace background_tasks].
  split_and!.
  - destruct (filter _ _) as [|d l].
    + by eapply touches_only_insert.
    + destruct (Business_parse _); by eapply touches_only_insert.
  - destruct (differs _ _); [by apply touches_only_refl|].
    by eapply touches_only_insert.
  - destruct (differs _ _); [by apply touches_only_refl|].
    destruct (ObjectId_is_valid id); cbn [negb]; [|by apply touches_only_refl].
    cbn [fst snd]. destruct (_ =? _)%nat; by eapply touches_only_insert.
  - destruct (differs _ _); [by apply touches_only_refl|].
    destruct (ObjectId_is_valid id); cbn [negb]; [|by apply touches_only_refl].
    cbn [fst snd]. destruct (_ =? _)%nat; by eapply touches_only_insert.
  - destruct (differs _ _); [by apply touches_only_refl|].
    destruct (filter _ _) as [|d l].
    + by eapply touches_only_insert.
    + destruct (d !! "_id"); [|by apply touches_only_refl].
      by eapply touches_only_insert.
Qed.

(** X5. [admin_upsert_business] never makes a second profile and never
    removes one: for an authorized caller the number of stored profiles
    afterwards is 1 if there was none and is unchanged otherwise, however many
    there were and whatever the outcome. *)
Theorem upsert_business_count (b : Business) (w : World) :
  length (_collection
            (admin_upsert_business environ b (Some (ADMIN_TOKEN environ)) w).2
            "business")
  = Nat.max 1 (length (_collection w "business")).
Proof.
  unfold admin_upsert_business.
  rewrite (proj2 (differs_false _ _) eq_refl).
  unfold mbind, M_bind, get_documents, create_document, update_one, ret, raise,
    _collection.
  cbn [db fresh trace background_tasks].
  rewrite filter_matches_empty.
  destruct (default [] (db w !! "business")) as [|d l] eqn:Hdocs.
  - cbn [snd db fresh trace background_tasks].
    by rewrite lookup_insert_eq, Hdocs.
  - destruct (d !! "_id") as [_id|]; cbn [snd db fresh trace background_tasks].
    + rewrite lookup_insert_eq, Hdocs. cbv [default from_option id].
      by rewrite length_update_first.
    + by rewrite Hdocs.
Qed.

End Footprint.

(** ** The catalogue *)

Lemma matches_category (c : string) (d : doc) :
  matches {["category" := VStr c]} d = true ↔ field_str d "category" = Some c.
Proof.
  rewrite matches_singleton. unfold field_str.
  destruct (d !! "category") as [[| | |s|]|]; simpl; try by split.
  rewrite String.eqb_eq. naive_solver.
Qed.

Lemma field_str_delete_id (d : doc) (k : string) :
  k ≠ "_id" → field_str (delete "_id" d) k = field_str d k.
Proof. intros Hk. unfold field_str. by rewrite lookup_delete_ne. Qed.

Lemma Product_parse_category `{Ext : Externals} (d : doc) (p : Product) :
  Product_parse d = Some p → field_str d "category" = Some (category p).
Proof.
  unfold Product_parse. intros H. simplify_option_eq. done.
Qed.

Lemma mapM_snoc {A B} (f : A → option B) (l : list A) (x : A) :
  mapM f (l ++ [x]) = ps ← mapM f l; y ← f x; Some (ps ++ [y]).
Proof.
  induction l as [|a l IH]; simpl.
  - by destruct (f x).
  - destruct (f a) as [b|]; simpl; [|done]. rewrite IH.
    destruct (mapM f l) as [ps|]; simpl; [|done]. by destruct (f x).
Qed.

Lemma Product_parse_stored `{Ext : Externals} (p : Product) (d : doc) :
  ge0 (price p) = true →
  Product_parse (delete "_id" (Product_dump p ∪ d)) = Some p.
Proof.
  intros Hprice. destruct p as [t ds pr c i u]. simpl in Hprice.
  unfold Product_parse, field_str, field_opt_str, field_float, field_bool.
  repeat match goal with
  | |- context [delete "_id" (?m ∪ d) !! ?k] =>
      erewrite (stored_field m d k) by first [reflexivity | done]
  end.
  simpl. rewrite Hprice. simpl. by destruct ds, u.
Qed.

Lemma Product_parse_inserted `{Ext : Externals} (p : Product) (v : value) :
  ge0 (price p) = true →
  Product_parse (delete "_id" (<["_id" := v]> (Product_dump p))) = Some p.
Proof.
  intros Hprice.
  rewrite delete_insert_eq, <- (right_id_L ∅ (∪) (Product_dump p)).
  by apply Product_parse_stored.
Qed.

Lemma Product_dump_no_id (p : Product) : Product_dump p !! "_id" = None.
Proof. reflexivity. Qed.

Lemma update_first_at (filt fields : doc) (l1 l2 : list doc) (d : doc) :
  (∀ x, x ∈ l1 → matches filt x = false) →
  matches filt d = true →
  update_first filt fields (l1 ++ d :: l2) = (1, l1 ++ (fields ∪ d) :: l2).
Proof.
  intros Hno Hd. induction l1 as [|x l1 IH]; simpl.
  - by rewrite Hd.
  - rewrite Hno by by left. rewrite IH; [done|].
    intros y Hy. apply Hno. by right.
Qed.

Lemma delete_first_at (filt : doc) (l1 l2 : list doc) (d : doc) :
  (∀ x, x ∈ l1 → matches filt x = false) →
  matches filt d = true →
  delete_first filt (l1 ++ d :: l2) = (1, l1 ++ l2).
Proof.
  intros Hno Hd. induction l1 as [|x l1 IH]; simpl.
  - by rewrite Hd.
  - rewrite Hno by by left. rewrite IH; [done|].
    intros y Hy. apply Hno. by right.
Qed.

Lemma no_match_id (o : ObjectId) (l : list doc) :
  (∀ x, x ∈ l → x !! "_id" ≠ Some (VOid o)) →
  ∀ x, x ∈ l → matches {["_id" := VOid o]} x = false.
Proof.
  intros Hno x Hx. apply not_true_is_false. rewrite matches_id. by apply Hno.
Qed.

Lemma admin_delete_product_authorized `{Ext : Externals}
    (environ : gmap string string) (product_id : string) (w : World) :
  ObjectId_is_valid product_id = true →
  admin_delete_product environ product_id (Some (ADMIN_TOKEN environ)) w
  = let filt : doc := {["_id" := VOid (ObjectId_of_str product_id)]} in
    let r := delete_first filt (_collection w "product") in
    (if (r.1 =? 0)%nat then inl (HTTPException 404 "Not found")
     else inr {["deleted" := VBool true]},
     {| db := <["product" := r.2]> (db w); fresh := fresh w;
        trace := trace w ++ [OpDeleteOne "product" filt];
        background_tasks := background_tasks w |}).
Proof.
  intros Hvalid. unfold admin_delete_product.
  rewrite (proj2 (differs_false _ _) eq_refl), Hvalid. cbn [negb].
  unfold mbind, M_bind, delete_one. cbv zeta. cbn [fst snd].
  by destruct (_ =? _)%nat.
Qed.

Section Catalogue2.
Context `{Ext : Externals} (environ : gmap string string).

(** X6. With a category that is not empty, [list_products] builds its answer
    from exactly the stored products whose "category" is that string, in the
    store's order, so every product it returns has that category; a stored
    product of that category that does not validate makes the whole call
    raise. *)
Theorem list_products_by_category (c : string) (w : World) :
  c ≠ EmptyString →
  (list_products (Some c) w).1
  = match mapM (λ d, Product_parse (delete "_id" d))
               (filter (λ d, field_str d "category" = Some c)
                       (_collection w "product")) with
    | Some ps => inr ps
    | None => inl ValidationError
    end
  ∧ ∀ ps, (list_products (Some c) w).1 = inr ps →
          Forall (λ p, category p = c) ps.
Proof.
  intros Hc.
  assert (Hrun : (list_products (Some c) w).1
    = match mapM (λ d, Product_parse (delete "_id" d))
                 (filter (λ d, field_str d "category" = Some c)
                         (_collection w "product")) with
      | Some ps => inr ps
      | None => inl ValidationError
      end).
  { unfold list_products. destruct c as [|a c]; [done|].
    cbn [truthy_opt truthy dump_opt].
    unfold mbind, M_bind, get_documents.
    rewrite for_each_construct. cbn [fst].
    by rewrite (list_filter_iff _ (λ d, field_str d "category" = Some (String a c)))
      by (intros d; apply matches_category). }
  split; [exact Hrun|].
  intros ps Hps. rewrite Hrun in Hps.
  destruct (mapM _ _) as [ps'|] eqn:Hmap; [|done].
  injection Hps as ->. apply mapM_Some in Hmap.
  eapply Forall2_Forall_r; [exact Hmap|].
  apply Forall_forall. intros d [Hd _]%list_elem_of_filter p Hp.
  apply Product_parse_category in Hp.
  rewrite field_str_delete_id in Hp by done. congruence.
Qed.

(** X7. A product created by an authorized caller is listed: the handler
    returns the new identifier as a string, and the public listing afterwards
    is the listing before with the product added at the end (when the price
    is one [Product] accepts, as for every validated product). *)
Theorem created_product_is_listed (p : Product) (w : World) :
  ge0 (price p) = true →
  (admin_create_product environ p (Some (ADMIN_TOKEN environ)) w).1
  = inr {["id" := VStr (ObjectId_str (fresh w))]}
  ∧ (list_products None
       (admin_create_product environ p (Some (ADMIN_TOKEN environ)) w).2).1
    = match (list_products None w).1 with
      | inr ps => inr (ps ++ [p])
      | inl e => inl e
      end.
Proof.
  intros Hprice. unfold admin_create_product.
  rewrite (proj2 (differs_false _ _) eq_refl).
  split; [done|].
  unfold list_products. cbn [truthy_opt].
  unfold mbind, M_bind, get_documents, create_document, ret.
  cbn [fst snd db fresh trace background_tasks].
  rewrite !filter_matches_empty, !for_each_construct. cbn [fst].
  unfold _collection at 1. cbn [db]. rewrite lookup_insert_eq.
  cbv [default from_option id].
  rewrite mapM_snoc, Product_parse_inserted by done.
  by destruct (mapM _ _).
Qed.

(** X8. For an authorized caller and a well-formed identifier that some
    stored product has, [admin_update_product] answers [updated] and sets the
    payload's fields on the first product with that identifier: it keeps its
    place and its identifier, reads back as the payload, and every other
    product is as before. *)
Theorem admin_update_product_replaces (product_id : string) (p : Product)
    (l1 l2 : list doc) (d : doc) (w : World) :
  ObjectId_is_valid product_id = true →
  _collection w "product" = l1 ++ d :: l2 →
  (∀ x, x ∈ l1 → x !! "_id" ≠ Some (VOid (ObjectId_of_str product_id))) →
  d !! "_id" = Some (VOid (ObjectId_of_str product_id)) →
  ∃ w',
    admin_update_product environ product_id p (Some (ADMIN_TOKEN environ)) w
    = (inr {["updated" := VBool true]}, w')
    ∧ _collection w' "product" = l1 ++ (Product_dump p ∪ d) :: l2
    ∧ (Product_dump p ∪ d) !! "_id" = d !! "_id"
    ∧ (ge0 (price p) = true →
       Product_parse (delete "_id" (Product_dump p ∪ d)) = Some p).
Proof.
  intros Hvalid Hdocs Hl1 Hd. unfold admin_update_product.
  rewrite (proj2 (differs_false _ _) eq_refl), Hvalid. cbn [negb].
  unfold mbind, M_bind, update_one.
  rewrite Hdocs, update_first_at;
    [|by apply no_match_id|by apply matches_id].
  cbn [fst snd Nat.eqb]. eexists. split_and!; [reflexivity|..].
  - by apply (_collection_insert_eq w _ "product").
  - by rewrite lookup_union_r by apply Product_dump_no_id.
  - apply Product_parse_stored.
Qed.

(** X9. For an authorized caller and a well-formed identifier that some
    stored product has, [admin_delete_product] answers [deleted] and removes
    the first product with that identifier and nothing else. *)
Theorem admin_delete_product_removes (product_id : string)
    (l1 l2 : list doc) (d : doc) (w : World) :
  ObjectId_is_valid product_id = true →
  _collection w "product" = l1 ++ d :: l2 →
  (∀ x, x ∈ l1 → x !! "_id" ≠ Some (VOid (ObjectId_of_str product_id))) →
  d !! "_id" = Some (VOid (ObjectId_of_str product_id)) →
  ∃ w',
    admin_delete_product environ product_id (Some (ADMIN_TOKEN environ)) w
    = (inr {["deleted" := VBool true]}, w')
    ∧ _collection w' "product" = l1 ++ l2.
Proof.
  intros Hvalid Hdocs Hl1 Hd.
  rewrite admin_delete_product_authorized by done. cbv zeta.
  rewrite Hdocs, delete_first_at;
    [|by apply no_match_id|by apply matches_id].
  cbn [fst snd Nat.eqb]. eexists. split; [reflexivity|].
  by apply (_collection_insert_eq w _ "product").
Qed.

End Catalogue2.

(** ** The schemas *)

Lemma InkOrder_dump_no_id (o : InkOrder) : InkOrder_dump o !! "_id" = None.
Proof. reflexivity. Qed.

Lemma InkOrder_parse_stored `{Ext : Externals} (o : InkOrder) (d : doc) :
  gt0 (quantity_liters o) = true →
  EmailStr (customer_email o) = Some (customer_email o) →
  InkOrder_parse (delete "_id" (InkOrder_dump o ∪ d)) = Some o.
Proof.
  intros Hq Hmail. destruct o as [n e p c q m a]. simpl in Hq, Hmail.
  unfold InkOrder_parse, field_email, field_str, field_opt_str, field_float.
  repeat match goal with
  | |- context [delete "_id" (?m ∪ d) !! ?k] =>
      erewrite (stored_field m d k) by first [reflexivity | done]
  end.
  simpl. rewrite Hmail, Hq. simpl. by destruct p, m, a.
Qed.

Lemma dump_alone {A} (m : gmap string A) :
  m !! "_id" = None → delete "_id" (m ∪ ∅) = m.
Proof. intros Hm. by rewrite (right_id_L ∅ (∪)), delete_id. Qed.

Lemma field_str_Some (d : doc) (k s : string) :
  field_str d k = Some s ↔ d !! k = Some (VStr s).
Proof.
  unfold field_str. destruct (d !! k) as [v|]; [|split; discriminate].
  destruct v; split; intros H; try discriminate; congruence.
Qed.

Lemma field_float_Some `{Ext : Externals} (d : doc) (k : string)
    (ok : float → bool) (x : float) :
  field_float d k ok = Some x
  ↔ ∃ v, d !! k = Some v ∧ as_float v = Some x ∧ ok x = true.
Proof.
  unfold field_float. destruct (d !! k) as [v|].
  - destruct (as_float v) as [y|] eqn:Hv.
    + destruct (ok y) eqn:Hy; split.
      * intros [= ->]. by exists v.
      * intros (v' & [= <-] & Hx & _). congruence.
      * discriminate.
      * intros (v' & [= <-] & Hx & Hok). congruence.
    + split; [discriminate|]. intros (v' & [= <-] & Hx & _). congruence.
  - split; [discriminate|]. intros (v' & Hv & _). discriminate.
Qed.

Lemma field_bool_absent `{Ext : Externals} (d : doc) (k : string) (dflt b : bool) :
  field_bool d k dflt = Some b → d !! k = None → b = dflt.
Proof. unfold field_bool. intros H Hk. rewrite Hk in H. congruence. Qed.

Lemma field_bool_given `{Ext : Externals} (d : doc) (k : string) (dflt b : bool)
    (v : value) :
  field_bool d k dflt = Some b → d !! k = Some v → as_bool v = Some b.
Proof. unfold field_bool. intros H Hk. by rewrite Hk in H. Qed.

Lemma field_opt_str_absent (d : doc) (k : string) (o : option string) :
  field_opt_str d k = Some o →
  d !! k = None ∨ d !! k = Some VNone → o = None.
Proof. unfold field_opt_str. intros H [Hk|Hk]; rewrite Hk in H; congruence. Qed.

Lemma Product_parse_price `{Ext : Externals} (d : doc) (p : Product) :
  Product_parse d = Some p → field_float d "price" ge0 = Some (price p).
Proof. unfold Product_parse. intros H. simplify_option_eq. done. Qed.

Lemma InkOrder_parse_checked `{Ext : Externals} (d : doc) (o : InkOrder) :
  InkOrder_parse d = Some o →
  field_float d "quantity_liters" gt0 = Some (quantity_liters o)
  ∧ field_email d "customer_email" = Some (customer_email o).
Proof. unfold InkOrder_parse. intros H. simplify_option_eq. done. Qed.

Section Schemas2.
Context `{Ext : Externals}.

(** X10. What [Product] accepts: the title and the category are the body's
    strings; the price is the float its value in the body is (a float as it
    is, any other value as pydantic's lax mode reads it) and is not negative
    (nor NaN); "in_stock" is true when the body has none, and otherwise the
    bool its value is; a description or image URL that is missing or null is
    absent. *)
Theorem Product_parse_accepts (d : doc) (p : Product) :
  Product_parse d = Some p →
  d !! "title" = Some (VStr (title p))
  ∧ d !! "category" = Some (VStr (category p))
  ∧ (∃ v, d !! "price" = Some v ∧ as_float v = Some (price p))
  ∧ (∀ x, d !! "price" = Some (VFloat x) → price p = x)
  ∧ ge0 (price p) = true
  ∧ (d !! "in_stock" = None → in_stock p = true)
  ∧ (∀ v, d !! "in_stock" = Some v → as_bool v = Some (in_stock p))
  ∧ (∀ b, d !! "in_stock" = Some (VBool b) → in_stock p = b)
  ∧ (d !! "description" = None ∨ d !! "description" = Some VNone →
     description p = None)
  ∧ (d !! "image_url" = None ∨ d !! "image_url" = Some VNone →
     image_url p = None).
Proof.
  unfold Product_parse. intros H.
  destruct (field_str d "title") as [t|] eqn:Ht; [|done].
  destruct (field_opt_str d "description") as [ds|] eqn:Hds; [|done].
  destruct (field_float d "price" ge0) as [x|] eqn:Hx; [|done].
  destruct (field_str d "category") as [c|] eqn:Hc; [|done].
  destruct (field_bool d "in_stock" true) as [i|] eqn:Hi; [|done].
  destruct (field_opt_str d "image_url") as [u|] eqn:Hu; [|done].
  simplify_eq/=.
  apply field_str_Some in Ht, Hc.
  apply field_float_Some in Hx as (v & Hv & Hx & Hge).
  split_and!; try done.
  - by exists v.
  - intros y Hy. rewrite Hy in Hv. injection Hv as <-. simpl in Hx. congruence.
  - by apply field_bool_absent.
  - intros v' Hv'. by apply (field_bool_given d "in_stock" true).
  - intros b Hb. pose proof (field_bool_given _ _ _ _ _ Hi Hb) as Hgiven.
    simpl in Hgiven. congruence.
  - by apply field_opt_str_absent.
  - by apply field_opt_str_absent.
Qed.

(** X11. What [InkOrder] accepts: the customer name and the color are the
    body's strings; the customer email is the result of [EmailStr] on the
    body's string; the quantity is the float its value in the body is (a
    float as it is, any other value as pydantic's lax mode reads it) and is
    strictly positive (zero, negative numbers and NaN are rejected). *)
Theorem InkOrder_parse_accepts (d : doc) (o : InkOrder) :
  InkOrder_parse d = Some o →
  d !! "customer_name" = Some (VStr (customer_name o))
  ∧ d !! "color" = Some (VStr (color o))
  ∧ (∃ raw, d !! "customer_email" = Some (VStr raw)
            ∧ EmailStr raw = Some (customer_email o))
  ∧ (∃ v, d !! "quantity_liters" = Some v
          ∧ as_float v = Some (quantity_liters o))
  ∧ (∀ x, d !! "quantity_liters" = Some (VFloat x) → quantity_liters o = x)
  ∧ gt0 (quantity_liters o) = true.
Proof.
  unfold InkOrder_parse, field_email. intros H.
  destruct (field_str d "customer_name") as [n|] eqn:Hn; [|done].
  destruct (field_str d "customer_email") as [raw|] eqn:Hraw; [|done].
  simpl in H. destruct (EmailStr raw) as [e|] eqn:He; [|done].
  destruct (field_opt_str d "customer_phone") as [ph|]; [|done].
  destruct (field_str d "color") as [c|] eqn:Hc; [|done].
  destruct (field_float d "quantity_liters" gt0) as [x|] eqn:Hx; [|done].
  destruct (field_opt_str d "message") as [m|]; [|done].
  destruct (field_opt_str d "delivery_address") as [a|]; [|done].
  simplify_eq/=.
  apply field_str_Some in Hn, Hraw, Hc.
  apply field_float_Some in Hx as (v & Hv & Hx & Hgt).
  split_and!; try done.
  - by exists raw.
  - by exists v.
  - intros y Hy. rewrite Hy in Hv. injection Hv as <-. simpl in Hx. congruence.
Qed.

(** X12. A key that is not a field of the model is ignored: adding it to a
    body, with any value, changes neither whether the body validates nor the
    model built from it. *)
Theorem unknown_keys_are_ignored (k : string) (v : value) (d : doc) :
  (k ∉ Product_fields →
   Product_parse (<[k := v]> d) = Product_parse d)
  ∧ (k ∉ Business_fields →
     Business_parse (<[k := v]> d) = Business_parse d)
  ∧ (k ∉ InkOrder_fields →
     InkOrder_parse (<[k := v]> d) = InkOrder_parse d).
Proof.
  unfold Product_fields, Business_fields, InkOrder_fields.
  split_and!; intros Hk; rewrite !not_elem_of_cons in Hk;
    destruct_and!;
    unfold Product_parse, Business_parse, InkOrder_parse, field_email,
      field_str, field_opt_str, field_float, field_bool;
    by rewrite !lookup_insert_ne by done.
Qed.

Lemma Business_parse_email (d : doc) (b : Business) :
  Business_parse d = Some b →
  ∃ raw, d !! "email" = Some (VStr raw) ∧ EmailStr raw = Some (email b).
Proof.
  unfold Business_parse, field_email. intros H.
  destruct (field_str d "name") as [n|]; [|done].
  destruct (field_str d "email") as [raw|] eqn:Hraw; [|done].
  simpl in H. destruct (EmailStr raw) as [e|] eqn:He; [|done].
  destruct (field_opt_str d "phone"); [|done].
  destruct (field_opt_str d "address_line1"); [|done].
  destruct (field_opt_str d "address_line2"); [|done].
  destruct (field_opt_str d "city"); [|done].
  destruct (field_opt_str d "state"); [|done].
  destruct (field_opt_str d "postal_code"); [|done].
  destruct (field_opt_str d "country"); [|done].
  simplify_eq/=. apply field_str_Some in Hraw. by exists raw.
Qed.

(** X13. Dumping a model and building it again gives the model back exactly
    when its constrained fields pass: a product when its price is accepted, an
    order when its quantity is accepted and [EmailStr] returns its email
    unchanged, a business profile when [EmailStr] returns its email
    unchanged. *)
Theorem dump_then_parse (p : Product) (o : InkOrder) (b : Business) :
  (Product_parse (Product_dump p) = Some p ↔ ge0 (price p) = true)
  ∧ (InkOrder_parse (InkOrder_dump o) = Some o
     ↔ gt0 (quantity_liters o) = true
       ∧ EmailStr (customer_email o) = Some (customer_email o))
  ∧ (Business_parse (Business_dump b) = Some b
     ↔ EmailStr (email b) = Some (email b)).
Proof.
  split_and!; split.
  - intros H%Product_parse_price.
    by apply field_float_Some in H as (v & _ & _ & ?).
  - intros H. rewrite <- (dump_alone (Product_dump p)) at 1 by done.
    by apply Product_parse_stored.
  - intros [Hq Hmail]%InkOrder_parse_checked.
    apply field_float_Some in Hq as (v & _ & _ & Hq). by split.
  - intros [Hq Hmail]. rewrite <- (dump_alone (InkOrder_dump o)) at 1 by done.
    by apply InkOrder_parse_stored.
  - intros H. destruct (Business_parse_email _ _ H) as (raw & Hraw & Hmail).
    change (Business_dump b !! "email") with (Some (VStr (email b))) in Hraw.
    by simplify_eq.
  - intros Hmail. rewrite <- (dump_alone (Business_dump b)) at 1 by done.
    by apply Business_parse_stored.
Qed.

End Schemas2.

(** ** The admin views and the life of a product *)

Lemma exposes_shown `{Ext : Externals} (d : doc) :
  exposes d (delete "_id" (<["id" := VStr (str (get d "_id"))]> d)).
Proof.
  split_and!.
  - apply lookup_delete_eq.
  - by rewrite lookup_delete_ne, lookup_insert_eq.
  - intros k Hid H_id. by rewrite lookup_delete_ne, lookup_insert_ne.
Qed.

Lemma Business_parse_shown `{Ext : Externals} (d : doc) (v : value) :
  Business_parse (delete "_id" (<["id" := v]> d))
  = Business_parse (delete "_id" d).
Proof.
  unfold Business_parse, field_email, field_str, field_opt_str.
  by rewrite !lookup_delete_ne, !lookup_insert_ne by done.
Qed.

Section Views.
Context `{Ext : Externals} (environ : gmap string string).

(** X14. For an authorized caller [admin_list_products] returns one entry per
    stored product, in the store's order; each entry has the product's
    identifier as a string under "id", has no "_id", and has every other key
    of the stored document unchanged. It never raises: stored documents are
    not validated. *)
Theorem admin_list_products_exposes (w : World) :
  ∃ out w',
    admin_list_products environ (Some (ADMIN_TOKEN environ)) w = (inr out, w')
    ∧ Forall2 exposes (_collection w "product") out.
Proof.
  unfold admin_list_products.
  rewrite (proj2 (differs_false _ _) eq_refl).
  unfold mbind, M_bind, get_documents.
  rewrite filter_matches_empty, for_each_ret.
  eexists _, _. split; [reflexivity|].
  apply Forall2_fmap_r, Forall_Forall2_diag, Forall_forall.
  intros d _. apply exposes_shown.
Qed.

(** X15. The public and the admin view of the business profile agree. Both
    answer "absent" (not an error) exactly when no profile is stored.
    Otherwise both show the first stored document: the admin view exposes it
    with its identifier, without validating it, and the public view is the
    [Business] built from what the admin view shows, or a validation error
    when that document does not validate. *)
Theorem business_views_agree (w : World) :
  ((get_business_details w).1 = inr None ↔ _collection w "business" = [])
  ∧ ((admin_get_business environ (Some (ADMIN_TOKEN environ)) w).1 = inr None
     ↔ _collection w "business" = [])
  ∧ ∀ d l, _collection w "business" = d :: l →
      ∃ e,
        (admin_get_business environ (Some (ADMIN_TOKEN environ)) w).1
        = inr (Some e)
        ∧ exposes d e
        ∧ (get_business_details w).1
          = match Business_parse e with
            | Some b => inr (Some b)
            | None => inl ValidationError
            end.
Proof.
  unfold get_business_details, admin_get_business.
  rewrite (proj2 (differs_false _ _) eq_refl).
  unfold mbind, M_bind, get_documents, construct.
  rewrite !filter_matches_empty.
  destruct (_collection w "business") as [|d l]; split_and!; try done.
  - split; [|done]. by destruct (Business_parse _).
  - intros d' l' [= <- <-]. eexists. split_and!; [reflexivity|..].
    + apply exposes_shown.
    + rewrite Business_parse_shown. by destruct (Business_parse _).
Qed.

(** X16. Create, then delete. When the identifier the store assigns prints as
    a well-formed identifier that reads back as itself, and no stored product
    has it yet, then deleting the product by the string that
    [admin_create_product] returned answers [deleted] and leaves the product
    collection as it was before the creation; deleting it once more answers
    404. *)
Theorem create_then_delete_restores (p : Product) (w : World) :
  ObjectId_is_valid (ObjectId_str (fresh w)) = true →
  ObjectId_of_str (ObjectId_str (fresh w)) = fresh w →
  (∀ x, x ∈ _collection w "product" → x !! "_id" ≠ Some (VOid (fresh w))) →
  ∃ id w1 w2,
    admin_create_product environ p (Some (ADMIN_TOKEN environ)) w
    = (inr {["id" := VStr id]}, w1)
    ∧ admin_delete_product environ id (Some (ADMIN_TOKEN environ)) w1
      = (inr {["deleted" := VBool true]}, w2)
    ∧ _collection w2 "product" = _collection w "product"
    ∧ (admin_delete_product environ id (Some (ADMIN_TOKEN environ)) w2).1
      = inl (HTTPException 404 "Not found").
Proof.
  intros Hvalid Hback Hfresh.
  set (d := <["_id" := VOid (fresh w)]> (Product_dump p)).
  assert (Hcreate : ∃ w1,
    admin_create_product environ p (Some (ADMIN_TOKEN environ)) w
    = (inr {["id" := VStr (ObjectId_str (fresh w))]}, w1)
    ∧ _collection w1 "product" = _collection w "product" ++ d :: []).
  { unfold admin_create_product.
    rewrite (proj2 (differs_false _ _) eq_refl).
    unfold mbind, M_bind, create_document. eexists. split; [reflexivity|].
    by apply (_collection_insert_eq w _ "product"). }
  destruct Hcreate as (w1 & Hrun1 & Hdocs1).
  assert (Hdelete : ∃ w2,
    admin_delete_product environ (ObjectId_str (fresh w))
      (Some (ADMIN_TOKEN environ)) w1
    = (inr {["deleted" := VBool true]}, w2)
    ∧ _collection w2 "product" = _collection w "product").
  { rewrite admin_delete_product_authorized by done. cbv zeta.
    rewrite Hdocs1, Hback, delete_first_at;
      [|by apply no_match_id|apply matches_id, lookup_insert_eq].
    cbn [fst snd Nat.eqb]. eexists. split; [reflexivity|].
    rewrite <- (app_nil_r (_collection w "product")) at 2.
    by apply (_collection_insert_eq w1 _ "product"). }
  destruct Hdelete as (w2 & Hrun2 & Hdocs2).
  exists (ObjectId_str (fresh w)), w1, w2. split_and!; try done.
  rewrite admin_delete_product_authorized by done. cbv zeta.
  rewrite Hdocs2, Hback, delete_first_none by by apply no_match_id.
  reflexivity.
Qed.

(** X25. With any number of profiles stored, [admin_upsert_business] sets the
    payload on the first one, found by its identifier, and leaves the others
    as they are; the public read then returns the payload (for an email
    address that [EmailStr] returns unchanged). *)
Theorem upsert_updates_first_only (b : Business) (w : World) (d : doc)
    (l : list doc) (o : ObjectId) :
  _collection w "business" = d :: l →
  d !! "_id" = Some (VOid o) →
  ∃ w',
    admin_upsert_business environ b (Some (ADMIN_TOKEN environ)) w
    = (inr Updated, w')
    ∧ _collection w' "business" = (Business_dump b ∪ d) :: l
    ∧ (Business_dump b ∪ d) !! "_id" = Some (VOid o)
    ∧ (EmailStr (email b) = Some (email b) →
       (get_business_details w').1 = inr (Some b)).
Proof.
  intros Hdocs Hid.
  destruct (upsert_updates environ b w d l o Hdocs Hid) as (w' & Hrun & Hc & Hi).
  exists w'. split_and!; try done.
  intros Hmail. by apply (get_business_details_reads b d l w').
Qed.

End Views.

(** ** Orders and their notification *)

Lemma create_ink_order_run `{Ext : Externals} (order : InkOrder) (w : World) :
  let w2 :=
    {| db := <["inkorder" := _collection w "inkorder" ++ [stored_order order w]]>
               (db w);
       fresh := N.succ (fresh w);
       trace := (trace w ++ [OpInsert "inkorder" (stored_order order w)])
                ++ [OpFind "business" ∅];
       background_tasks := background_tasks w |} in
  create_ink_order order w
  = match _collection w "business" with
    | [] => (inr stored_not_configured, w2)
    | d :: _ =>
        match Business_parse (delete "_id" d) with
        | Some b =>
            (inr {["status" := VStr "ok"]},
             {| db := db w2; fresh := fresh w2;
                trace := trace w2 ++ [OpAddTask order b];
                background_tasks := background_tasks w ++ [(order, b)] |})
        | None => (inl ValidationError, w2)
        end
    end.
Proof.
  cbv zeta.
  unfold create_ink_order, mbind, M_bind, create_document, get_documents.
  cbn [db fresh trace background_tasks].
  rewrite filter_matches_empty.
  set (w1 := {| db := <["inkorder" := _ ]> (db w) |}).
  assert (Hb : _collection w1 "business" = _collection w "business")
    by by apply (_collection_insert_ne w w1 "inkorder" _ _ eq_refl).
  rewrite Hb. destruct (_collection w "business") as [|d l]; [done|].
  by destruct (Business_parse _).
Qed.

Lemma str_take_exact (n : nat) (s : string) :
  char_count (str_take n s) = n `min` char_count s.
Proof.
  revert n. induction s as [|c s IH]; intros n; simpl; [lia|].
  destruct (continuation c) eqn:Hc; simpl.
  - rewrite Hc. apply IH.
  - destruct n as [|k]; simpl; [done|]. rewrite Hc, IH. lia.
Qed.

Lemma str_take_boundary (n : nat) (s : string) :
  ∃ rest, s = str_take n s +:+ rest
          ∧ match rest with
            | String c _ => continuation c = false
            | EmptyString => True
            end.
Proof.
  revert n. induction s as [|c s IH]; intros n; simpl; [by exists EmptyString|].
  destruct (continuation c) eqn:Hc.
  - destruct (IH n) as (rest & Hrest & Hstart). exists rest. split; [|done].
    change (String c s = String c (str_take n s +:+ rest)). by rewrite <- Hrest.
  - destruct n as [|k]; [by exists (String c s)|].
    destruct (IH k) as (rest & Hrest & Hstart). exists rest. split; [|done].
    change (String c s = String c (str_take k s +:+ rest)). by rewrite <- Hrest.
Qed.

Lemma str_take_all (n : nat) (s : string) :
  char_count s ≤ n → str_take n s = s.
Proof.
  revert n. induction s as [|c s IH]; intros n; simpl; [done|].
  destruct (continuation c).
  - intros Hn. by rewrite IH.
  - destruct n as [|k]; [lia|]. intros Hn. rewrite IH; [done|lia].
Qed.

Section Notification2.
Context `{Ext : Externals} (environ : gmap string string).

Local Open Scope string_scope.

(** X17. When a business profile is stored and the first one validates,
    [create_ink_order] stores the order, schedules exactly one notification,
    for this order and that first profile, after the lookup, and answers
    "ok". *)
Theorem create_ink_order_schedules (order : InkOrder) (w : World)
    (d : doc) (l : list doc) (b : Business) :
  _collection w "business" = d :: l →
  Business_parse (delete "_id" d) = Some b →
  ∃ w',
    create_ink_order order w = (inr {["status" := VStr "ok"]}, w')
    ∧ _collection w' "inkorder"
      = (_collection w "inkorder" ++ [stored_order order w])%list
    ∧ background_tasks w' = (background_tasks w ++ [(order, b)])%list
    ∧ trace w'
      = (trace w ++ [OpInsert "inkorder" (stored_order order w);
                     OpFind "business" ∅; OpAddTask order b])%list.
Proof.
  intros Hdocs Hb. rewrite create_ink_order_run, Hdocs, Hb.
  eexists. split_and!; try reflexivity.
  - by apply (_collection_insert_eq w _ "inkorder").
  - cbn [trace]. by rewrite <- !app_assoc.
Qed.

(** X18. When the first stored business profile does not validate,
    [create_ink_order] raises the validation error, and the order is stored
    all the same; nothing is scheduled. *)
Theorem create_ink_order_invalid_profile (order : InkOrder) (w : World)
    (d : doc) (l : list doc) :
  _collection w "business" = d :: l →
  Business_parse (delete "_id" d) = None →
  ∃ w',
    create_ink_order order w = (inl ValidationError, w')
    ∧ _collection w' "inkorder"
      = (_collection w "inkorder" ++ [stored_order order w])%list
    ∧ background_tasks w' = background_tasks w.
Proof.
  intros Hdocs Hb. rewrite create_ink_order_run, Hdocs, Hb.
  eexists. split_and!; try reflexivity.
  by apply (_collection_insert_eq w _ "inkorder").
Qed.


(** X20. The session of [send_order_email], when it sends: it connects to the
    configured host and port; then STARTTLS exactly when [SMTP_TLS] (default
    "true") is "1", "true" or "yes" in any letter case; then a login exactly
    when a user and a password are both set and not empty, with those; then
    the message, and nothing after it. The sender is the SMTP user when one
    is set, and the business email otherwise. *)
Theorem send_order_email_session (order : InkOrder) (business : Business)
    (steps : list SmtpStep) :
  send_order_email environ order business = inr steps →
  ∃ port tls auth,
    int_of_str (getenv_or environ "SMTP_PORT" "587") = Some port
    ∧ steps
      = (smtp_connect (the (getenv environ "SMTP_HOST")) port :: tls ++ auth
         ++ [send_message
               (order_message (getenv environ "SMTP_USER") order business)])%list
    ∧ (tls = [starttls]
       ∧ lower (getenv_or environ "SMTP_TLS" "true") ∈ ["1"; "true"; "yes"]
       ∨ tls = []
         ∧ lower (getenv_or environ "SMTP_TLS" "true") ∉ ["1"; "true"; "yes"])
    ∧ (auth = [login (the (getenv environ "SMTP_USER"))
                     (the (getenv environ "SMTP_PASSWORD"))]
       ∧ truthy_opt (getenv environ "SMTP_USER") = true
       ∧ truthy_opt (getenv environ "SMTP_PASSWORD") = true
       ∨ auth = []
         ∧ (truthy_opt (getenv environ "SMTP_USER") = false
            ∨ truthy_opt (getenv environ "SMTP_PASSWORD") = false))
    ∧ From (order_message (getenv environ "SMTP_USER") order business)
      = (if truthy_opt (getenv environ "SMTP_USER")
         then the (getenv environ "SMTP_USER") else email business).
Proof.
  unfold send_order_email.
  destruct (int_of_str _) as [port|]; [|done].
  destruct (negb _ || negb _); [done|].
  destruct (negb (header_ok (Subject _))); [done|].
  destruct (negb (header_ok (From _))); [done|].
  destruct (negb (header_ok (To _))); [done|].
  intros [= <-]. eexists port, _, _. split_and!; [done|reflexivity|..].
  - destruct (bool_decide _) eqn:Htls.
    + left. split; [done|]. by apply bool_decide_eq_true in Htls.
    + right. split; [done|]. by apply bool_decide_eq_false in Htls.
  - destruct (truthy_opt (getenv environ "SMTP_USER")),
      (truthy_opt (getenv environ "SMTP_PASSWORD")); cbn [andb]; naive_solver.
  - done.
Qed.

(** X21. The defaults of [send_order_email]: with a host and a business
    email, with no port, TLS flag or user in the environment, and with a
    subject and a business email that [EmailMessage] takes as header values,
    it connects to port 587 (when [int] reads "587" as 587), starts TLS, does
    not log in, and sends from the business email. *)
Theorem send_order_email_defaults (order : InkOrder) (business : Business) :
  int_of_str "587" = Some 587%Z →
  environ !! "SMTP_PORT" = None →
  environ !! "SMTP_TLS" = None →
  environ !! "SMTP_USER" = None →
  truthy_opt (getenv environ "SMTP_HOST") = true →
  truthy (email business) = true →
  header_ok (Subject (order_message None order business)) = true →
  header_ok (email business) = true →
  send_order_email environ order business
  = inr [smtp_connect (the (getenv environ "SMTP_HOST")) 587; starttls;
         send_message (order_message None order business)]
  ∧ From (order_message None order business) = email business.
Proof.
  intros Hint Hport Htls Huser Hhost Hmail Hsubject Hto.
  unfold send_order_email, getenv_or, getenv in *.
  rewrite Hport, Htls, Huser. cbn [default]. rewrite Hint, Hhost, Hmail.
  cbn [negb orb]. rewrite Hsubject. cbn [negb order_message From To truthy_opt].
  rewrite Hto. done.
Qed.

(** X22. From order to email. When the first stored profile validates, email
    is configured and [EmailMessage] takes the subject, the sender and the
    recipient as header values, [create_ink_order] answers "ok" and the task
    it scheduled last, run with [send_order_email], ends by sending the
    message for this order to the email address of that stored profile. *)
Theorem order_notifies_stored_business (order : InkOrder) (w : World)
    (d : doc) (l : list doc) (b : Business) :
  _collection w "business" = d :: l →
  Business_parse (delete "_id" d) = Some b →
  is_Some (int_of_str (getenv_or environ "SMTP_PORT" "587")) →
  truthy_opt (getenv environ "SMTP_HOST") = true →
  truthy (email b) = true →
  header_ok (Subject (order_message (getenv environ "SMTP_USER") order b))
  = true →
  header_ok (From (order_message (getenv environ "SMTP_USER") order b))
  = true →
  header_ok (To (order_message (getenv environ "SMTP_USER") order b)) = true →
  ∃ w' steps msg,
    create_ink_order order w = (inr {["status" := VStr "ok"]}, w')
    ∧ last (background_tasks w') = Some (order, b)
    ∧ send_order_email environ order b = inr steps
    ∧ last steps = Some (send_message msg)
    ∧ To msg = email b
    ∧ msg = order_message (getenv environ "SMTP_USER") order b.
Proof.
  intros Hdocs Hb [port Hport] Hhost Hmail Hs Hf Ht.
  assert (Hsend : ∃ steps, send_order_email environ order b = inr steps).
  { unfold send_order_email. rewrite Hport, Hhost, Hmail. cbn [negb orb].
    rewrite Hs, Hf, Ht. by eexists. }
  destruct Hsend as [steps Hsteps].
  rewrite create_ink_order_run, Hdocs, Hb.
  eexists _, steps, _. split_and!; [reflexivity|..].
  - cbn [background_tasks]. apply last_snoc.
  - exact Hsteps.
  - by apply send_order_email_sends.
  - reflexivity.
  - reflexivity.
Qed.

End Notification2.

(** ** Diagnostics *)

Section Diagnostics2.
Context (environ : gmap string string).

(** X23. [test_database] lists at most ten collections: the first ten names
    the store lists, in its order, when the listing succeeds, and none when
    there is no database or the listing fails. *)
Theorem test_database_collections (db : option Database) :
  length (collections (test_database environ db)) ≤ 10
  ∧ (∀ d names, db = Some d → list_collection_names d = inr names →
       collections (test_database environ db) = take 10 names
       ∧ database (test_database environ db) = "✅ Connected & Working")
  ∧ (db = None ∨ (∃ d e, db = Some d ∧ list_collection_names d = inl e) →
     collections (test_database environ db) = []).
Proof.
  unfold test_database. split_and!.
  - destruct db as [d|]; cbn; [|lia].
    destruct (list_collection_names d) as [e|names]; cbn; [lia|].
    rewrite length_take. lia.
  - intros d names -> Hnames. by rewrite Hnames.
  - intros [->|(d & e & -> & He)]; [done|]. by rewrite He.
Qed.

(** X24. A failure of the store does not fail [test_database]: when the
    listing raises, the answer still says the backend runs and the database
    is connected, with its name, and the "database" entry is the warning
    followed by the first 80 characters of the exception's message: the
    prefix of the message that has 80 characters, or all of them when the
    message has fewer, and ends where a character ends; it is the whole
    message when that has no more than 80 characters. Without a database the
    answer is "Not Available", "Not Connected", with no name and no URL
    status. *)
Theorem test_database_degrades (db : option Database) :
  backend (test_database environ db) = "✅ Running"
  ∧ (∀ d e, db = Some d → list_collection_names d = inl e →
       database (test_database environ db)
       = "⚠️ Connected but Error: " +:+ str_take 80 e
       ∧ char_count (str_take 80 e) = 80 `min` char_count e
       ∧ (∃ rest, e = str_take 80 e +:+ rest
                  ∧ match rest with
                    | String c _ => continuation c = false
                    | EmptyString => True
                    end)
       ∧ (char_count e ≤ 80 → str_take 80 e = e)
       ∧ connection_status (test_database environ db) = "Connected"
       ∧ database_name (test_database environ db) = Some (db_name d))
  ∧ (db = None →
     database (test_database environ db) = "❌ Not Available"
     ∧ connection_status (test_database environ db) = "Not Connected"
     ∧ database_name (test_database environ db) = None
     ∧ database_url (test_database environ db) = None).
Proof.
  unfold test_database. split_and!.
  - destruct db as [d|]; [|done]. by destruct (list_collection_names d).
  - intros d e -> He. rewrite He. split_and!; try done.
    + apply str_take_exact.
    + apply str_take_boundary.
    + apply str_take_all.
  - by intros ->.
Qed.

End Diagnostics2.

(** * The properties on concrete requests *)

Import Sample.

(** C6 as stated fails: the order of the spec's example with the empty string
    for its color passes validation and is stored. *)
Lemma blank_color_order_is_stored :
  blank_color_body !! "color" = Some (VStr "")
  ∧ POST_orders_ink blank_color_body world0
    = (inr stored_not_configured,
       {| db := {["inkorder" :=
                   [<["_id" := VOid 1%N]> (InkOrder_dump (set_color order_A ""))]]};
          fresh := 2%N;
          trace := [OpInsert "inkorder"
                      (<["_id" := VOid 1%N]> (InkOrder_dump (set_color order_A "")));
                    OpFind "business" ∅];
          background_tasks := [] |}).
Proof. split; vm_compute; reflexivity. Qed.

(** C7 as stated fails: a product with the empty string for its title, sent
    with the configured token, passes validation and is stored. *)
Lemma blank_title_product_is_stored :
  blank_title_body !! "title" = Some (VStr "")
  ∧ POST_admin_products environ_secret blank_title_body (Some "s3cret") world0
    = (inr {["id" := VStr "000000000000000000000001"]},
       {| db := {["product" :=
                   [<["_id" := VOid 1%N]> (Product_dump (set_title blue_ink ""))]]};
          fresh := 2%N;
          trace := [OpInsert "product"
                      (<["_id" := VOid 1%N]> (Product_dump (set_title blue_ink "")))];
          background_tasks := [] |}).
Proof. split; vm_compute; reflexivity. Qed.



(** C2 from the empty store: created, then updated with the new phone. *)
Lemma upsert_business_twice_witness :
  at_most_one_business world0
  ∧ ∃ r1 w1 w2 d1 d2,
      admin_upsert_business environ_secret laxmi
        (Some (ADMIN_TOKEN environ_secret)) world0 = (inr r1, w1)
      ∧ _collection w1 "business" = [d1]
      ∧ (_collection world0 "business" = [] →
         r1 = Created ∧ d1 = <["_id" := VOid (fresh world0)]> (Business_dump laxmi))
      ∧ (∀ d0, _collection world0 "business" = [d0] →
         r1 = Updated ∧ d1 = Business_dump laxmi ∪ d0
         ∧ d1 !! "_id" = d0 !! "_id")
      ∧ admin_upsert_business environ_secret laxmi_new_phone
          (Some (ADMIN_TOKEN environ_secret)) w1 = (inr Updated, w2)
      ∧ _collection w2 "business" = [d2]
      ∧ d2 = Business_dump laxmi_new_phone ∪ d1
      ∧ d2 !! "_id" = d1 !! "_id"
      ∧ Business_dump laxmi_new_phone ⊆ d2
      ∧ (EmailStr (email laxmi_new_phone) = Some (email laxmi_new_phone) →
         (get_business_details w2).1 = inr (Some laxmi_new_phone)).
Proof.
  assert (H : at_most_one_business world0) by (left; reflexivity).
  split; [exact H|].
  exact (upsert_business_twice environ_secret laxmi laxmi_new_phone world0 H).
Defined.

(** C3 at a wrong token. *)
Lemma admin_gate_denies_witness :
  Some "guess" ≠ Some (ADMIN_TOKEN environ_secret)
  ∧ admin_list_products environ_secret (Some "guess") world_with_business
    = (inl Unauthorized, world_with_business)
  ∧ (∀ p, admin_create_product environ_secret p (Some "guess") world_with_business
          = (inl Unauthorized, world_with_business))
  ∧ (∀ id p, admin_update_product environ_secret id p (Some "guess")
               world_with_business
             = (inl Unauthorized, world_with_business))
  ∧ (∀ id, admin_delete_product environ_secret id (Some "guess")
             world_with_business
           = (inl Unauthorized, world_with_business))
  ∧ admin_get_business environ_secret (Some "guess") world_with_business
    = (inl Unauthorized, world_with_business)
  ∧ (∀ b, admin_upsert_business environ_secret b (Some "guess")
            world_with_business
          = (inl Unauthorized, world_with_business)).
Proof.
  assert (H : Some "guess" ≠ Some (ADMIN_TOKEN environ_secret))
    by (vm_compute; discriminate).
  split; [exact H|].
  exact (admin_gate_denies environ_secret (Some "guess") world_with_business H).
Defined.

(** C4 at the order of the spec's example, on the empty store. *)
Lemma create_ink_order_without_business_witness :
  _collection world0 "business" = []
  ∧ ∃ w',
      create_ink_order order_A world0 = (inr stored_not_configured, w')
      ∧ _collection w' "inkorder"
        = _collection world0 "inkorder" ++ [stored_order order_A world0]
      ∧ background_tasks w' = background_tasks world0
      ∧ trace w'
        = trace world0 ++ [OpInsert "inkorder" (stored_order order_A world0);
                           OpFind "business" ∅].
Proof.
  split; [reflexivity|].
  exact (create_ink_order_without_business order_A world0 eq_refl).
Defined.

(** C5 at an identifier that is not well formed, and at a well-formed one on
    the empty store. *)
Lemma product_id_invalid_or_absent_witness :
  Some "s3cret" = Some (ADMIN_TOKEN environ_secret)
  ∧ ObjectId_is_valid "not-an-id" = false
  ∧ admin_update_product environ_secret "not-an-id" blue_ink (Some "s3cret") world0
    = (inl (HTTPException 400 "Invalid ID"), world0)
  ∧ admin_delete_product environ_secret "not-an-id" (Some "s3cret") world0
    = (inl (HTTPException 400 "Invalid ID"), world0)
  ∧ ObjectId_is_valid "000000000000000000000007" = true
  ∧ ∃ wu wd,
      admin_update_product environ_secret "000000000000000000000007" blue_ink
        (Some "s3cret") world0
      = (inl (HTTPException 404 "Not found"), wu)
      ∧ (∀ c, _collection wu c = _collection world0 c)
      ∧ admin_delete_product environ_secret "000000000000000000000007"
          (Some "s3cret") world0
        = (inl (HTTPException 404 "Not found"), wd)
      ∧ (∀ c, _collection wd c = _collection world0 c).
Proof.
  assert (Htok : Some "s3cret" = Some (ADMIN_TOKEN environ_secret))
    by reflexivity.
  assert (Hbad : ObjectId_is_valid "not-an-id" = false) by reflexivity.
  assert (Hgood : ObjectId_is_valid "000000000000000000000007" = true)
    by reflexivity.
  assert (Habsent : ∀ d, d ∈ _collection world0 "product" →
            d !! "_id" ≠ Some (VOid (ObjectId_of_str "000000000000000000000007"))).
  { intros d Hd. by apply not_elem_of_nil in Hd. }
  destruct (product_id_invalid_or_absent environ_secret "not-an-id" blue_ink
              (Some "s3cret") world0 Htok) as [Hinvalid _].
  destruct (product_id_invalid_or_absent environ_secret
              "000000000000000000000007" blue_ink (Some "s3cret") world0 Htok)
    as [_ Hnotfound].
  destruct (Hinvalid Hbad) as [Hu Hd].
  destruct (Hnotfound Hgood Habsent)
    as (wu & wd & _ & Hu' & _ & Hcu & _ & Hd' & _ & Hcd).
  split_and!; try assumption. by exists wu, wd.
Defined.

(** C6 as amended, at the order of the spec's example with an empty color. *)
Lemma ink_order_color_any_string_witness :
  InkOrder_parse order_body = Some order_A
  ∧ InkOrder_parse blank_color_body = Some (set_color order_A "")
  ∧ ∃ r w',
      POST_orders_ink blank_color_body world0 = (r, w')
      ∧ _collection w' "inkorder"
        = _collection world0 "inkorder"
          ++ [stored_order (set_color order_A "") world0].
Proof.
  assert (H : InkOrder_parse order_body = Some order_A)
    by (vm_compute; reflexivity).
  destruct (ink_order_color_any_string order_body order_A "" world0 H)
    as (Hparse & _ & Hstored & _).
  by split_and!.
Defined.

(** C7 as amended, at a product with an empty title. *)
Lemma product_title_any_string_witness :
  Product_parse product_body = Some blue_ink
  ∧ Product_parse blank_title_body = Some (set_title blue_ink "")
  ∧ ∃ w',
      POST_admin_products environ_secret blank_title_body
        (Some (ADMIN_TOKEN environ_secret)) world0
      = (inr {["id" := VStr (ObjectId_str (fresh world0))]}, w')
      ∧ _collection w' "product"
        = _collection world0 "product"
          ++ [<["_id" := VOid (fresh world0)]>
                (Product_dump (set_title blue_ink ""))].
Proof.
  assert (H : Product_parse product_body = Some blue_ink)
    by (vm_compute; reflexivity).
  destruct (product_title_any_string environ_secret product_body blue_ink ""
              "000000000000000000000007" world0 H)
    as (Hparse & Hstored & _).
  by split_and!.
Defined.



(** C10 on a store with a product of category "ink" and one of category "":
    the empty category lists both, the category "ink" only the first. *)
Example list_products_empty_category_run :
  (list_products (Some "") world_with_products).1 = inr [blue_ink; plain_paper]
  ∧ (list_products (Some "ink") world_with_products).1 = inr [blue_ink].
Proof. split; vm_compute; reflexivity. Qed.

(** ** More runs *)

(** With a profile stored, the order is stored, one notification is scheduled
    for the stored profile, and the answer is "ok". *)
Example create_ink_order_with_business_run :
  (create_ink_order order_A world_with_business).1 = inr {["status" := VStr "ok"]}
  ∧ background_tasks (create_ink_order order_A world_with_business).2
    = [(order_A, laxmi)]
  ∧ _collection (create_ink_order order_A world_with_business).2 "inkorder"
    = [<["_id" := VOid 8%N]> (InkOrder_dump order_A)].
Proof. split_and!; vm_compute; reflexivity. Qed.

(** The scheduled notification fails on its own when no SMTP host is set, and
    is the subject and body below when one is. *)
Example send_order_email_run :
  send_order_email environ_secret order_A laxmi
  = inl (RuntimeError
           "Email is not configured. Set SMTP_* env vars and business email.")
  ∧ Subject (order_message None order_A laxmi) = "New Ink Order: Red - 5.0 L"
  ∧ content (order_message None order_A laxmi)
    = "New Ink Order Received" +:+ nl +:+ nl +:+
      "Customer: A" +:+ nl +:+
      "Email: a@x.com" +:+ nl +:+
      "Phone: -" +:+ nl +:+ nl +:+
      "Color: Red" +:+ nl +:+
      "Quantity (L): 5.0" +:+ nl +:+
      "Delivery Address: -" +:+ nl +:+ nl +:+
      "Message:" +:+ nl +:+ "-" +:+ nl.
Proof. split_and!; vm_compute; reflexivity. Qed.

(** The spec's example of the business profile: created, then updated with a
    new phone number, and read back with the new number. *)
Example upsert_business_run :
  let w1 := (PUT_admin_business environ_secret (Business_dump laxmi)
               (Some "s3cret") world0).2 in
  let w2 := (PUT_admin_business environ_secret (Business_dump laxmi_new_phone)
               (Some "s3cret") w1).2 in
  (PUT_admin_business environ_secret (Business_dump laxmi)
     (Some "s3cret") world0).1 = inr Created
  ∧ (PUT_admin_business environ_secret (Business_dump laxmi_new_phone)
       (Some "s3cret") w1).1 = inr Updated
  ∧ length (_collection w2 "business") = 1
  ∧ (get_business_details w2).1 = inr (Some laxmi_new_phone).
Proof. split_and!; vm_compute; reflexivity. Qed.

(** Validation keeps what the schemas do constrain: a quantity that is not
    positive, a negative price and an address without an at sign are
    rejected with nothing stored. *)
Example validation_run :
  POST_orders_ink (<["quantity_liters" := VFloat 0]> order_body) world0
  = (inl Unprocessable, world0)
  ∧ POST_orders_ink (<["customer_email" := VStr "nobody"]> order_body) world0
    = (inl Unprocessable, world0)
  ∧ POST_admin_products environ_secret (<["price" := VFloat (-1)]> product_body)
      (Some "s3cret") world0
    = (inl Unprocessable, world0).
Proof. split_and!; vm_compute; reflexivity. Qed.

(** * The further properties on concrete requests *)

Import MoreSamples.


(** X6 at the category "ink". *)
Lemma list_products_by_category_witness :
  "ink" ≠ EmptyString
  ∧ ∀ ps, (list_products (Some "ink") world_with_products).1 = inr ps →
          Forall (λ p, category p = "ink") ps.
Proof.
  assert (H : "ink" ≠ EmptyString) by discriminate.
  split; [exact H|].
  exact (proj2 (list_products_by_category "ink" world_with_products H)).
Defined.

(** X7 at a product added to a store with two products. *)
Lemma created_product_is_listed_witness :
  ge0 (price plain_paper) = true
  ∧ (admin_create_product environ_secret plain_paper
       (Some (ADMIN_TOKEN environ_secret)) world_with_products).1
    = inr {["id" := VStr (ObjectId_str (fresh world_with_products))]}
  ∧ (list_products None
       (admin_create_product environ_secret plain_paper
          (Some (ADMIN_TOKEN environ_secret)) world_with_products).2).1
    = match (list_products None world_with_products).1 with
      | inr ps => inr (ps ++ [plain_paper])
      | inl e => inl e
      end.
Proof.
  assert (H : ge0 (price plain_paper) = true) by reflexivity.
  split; [exact H|].
  exact (created_product_is_listed environ_secret plain_paper
           world_with_products H).
Defined.

Lemma world_with_products_docs :
  _collection world_with_products "product"
  = [blue_ink_doc] ++ plain_paper_doc :: [].
Proof. reflexivity. Defined.

Lemma blue_ink_doc_other_id :
  ∀ x, x ∈ [blue_ink_doc] →
       x !! "_id" ≠ Some (VOid (ObjectId_of_str "000000000000000000000004")).
Proof. intros x ->%list_elem_of_singleton. discriminate. Defined.

(** X8 at the second of two stored products. *)
Lemma admin_update_product_replaces_witness :
  ObjectId_is_valid "000000000000000000000004" = true
  ∧ ∃ w',
      admin_update_product environ_secret "000000000000000000000004" blue_ink
        (Some (ADMIN_TOKEN environ_secret)) world_with_products
      = (inr {["updated" := VBool true]}, w')
      ∧ _collection w' "product"
        = [blue_ink_doc] ++ (Product_dump blue_ink ∪ plain_paper_doc) :: []
      ∧ (Product_dump blue_ink ∪ plain_paper_doc) !! "_id"
        = plain_paper_doc !! "_id"
      ∧ (ge0 (price blue_ink) = true →
         Product_parse (delete "_id" (Product_dump blue_ink ∪ plain_paper_doc))
         = Some blue_ink).
Proof.
  assert (H : ObjectId_is_valid "000000000000000000000004" = true)
    by reflexivity.
  split; [exact H|].
  exact (admin_update_product_replaces environ_secret
           "000000000000000000000004" blue_ink [blue_ink_doc] []
           plain_paper_doc world_with_products H world_with_products_docs
           blue_ink_doc_other_id eq_refl).
Defined.

(** X9 at the second of two stored products. *)
Lemma admin_delete_product_removes_witness :
  ObjectId_is_valid "000000000000000000000004" = true
  ∧ ∃ w',
      admin_delete_product environ_secret "000000000000000000000004"
        (Some (ADMIN_TOKEN environ_secret)) world_with_products
      = (inr {["deleted" := VBool true]}, w')
      ∧ _collection w' "product" = [blue_ink_doc] ++ [].
Proof.
  assert (H : ObjectId_is_valid "000000000000000000000004" = true)
    by reflexivity.
  split; [exact H|].
  exact (admin_delete_product_removes environ_secret
           "000000000000000000000004" [blue_ink_doc] []
           plain_paper_doc world_with_products H world_with_products_docs
           blue_ink_doc_other_id eq_refl).
Defined.

(** X10 at the sample product body with the price written as the string
    "120" and the number 1 for "in_stock". *)
Lemma Product_parse_accepts_witness :
  Product_parse product_body_text_price = Some blue_ink
  ∧ product_body_text_price !! "price" = Some (VStr "120")
  ∧ (∃ v, product_body_text_price !! "price" = Some v
          ∧ as_float v = Some (price blue_ink))
  ∧ ge0 (price blue_ink) = true
  ∧ as_bool (VFloat 1) = Some (in_stock blue_ink)
  ∧ description blue_ink = None.
Proof.
  assert (H : Product_parse product_body_text_price = Some blue_ink)
    by (vm_compute; reflexivity).
  destruct (Product_parse_accepts product_body_text_price blue_ink H)
    as (_ & _ & Hprice & _ & Hge & _ & Hstock & _ & Hdescription & _).
  split_and!; [exact H|reflexivity|exact Hprice|exact Hge|..].
  - by apply Hstock.
  - apply Hdescription. by left.
Defined.

(** X11 at the order of the spec's example with the quantity written as the
    string "5". *)
Lemma InkOrder_parse_accepts_witness :
  InkOrder_parse order_body_text_quantity = Some order_A
  ∧ order_body_text_quantity !! "quantity_liters" = Some (VStr "5")
  ∧ (∃ v, order_body_text_quantity !! "quantity_liters" = Some v
          ∧ as_float v = Some (quantity_liters order_A))
  ∧ gt0 (quantity_liters order_A) = true.
Proof.
  assert (H : InkOrder_parse order_body_text_quantity = Some order_A)
    by (vm_compute; reflexivity).
  destruct (InkOrder_parse_accepts order_body_text_quantity order_A H)
    as (_ & _ & _ & Hq & _ & Hgt).
  by split_and!.
Defined.

(** A body with the quantity as a float validates to the same order, and a
    quantity that is no number is rejected before anything is stored. *)
Example quantity_as_text_or_number :
  InkOrder_parse order_body = InkOrder_parse order_body_text_quantity
  ∧ POST_orders_ink (<["quantity_liters" := VStr "five"]> order_body) world0
    = (inl Unprocessable, world0).
Proof. split; vm_compute; reflexivity. Qed.

Lemma world_with_products_fresh :
  ∀ x, x ∈ _collection world_with_products "product" →
       x !! "_id" ≠ Some (VOid (fresh world_with_products)).
Proof.
  intros x Hx. change (x ∈ [blue_ink_doc; plain_paper_doc]) in Hx.
  apply elem_of_cons in Hx as [->|Hx]; [discriminate|].
  apply list_elem_of_singleton in Hx as ->. discriminate.
Defined.

(** X16 on a store with two products. *)
Lemma create_then_delete_restores_witness :
  ObjectId_is_valid (ObjectId_str (fresh world_with_products)) = true
  ∧ ObjectId_of_str (ObjectId_str (fresh world_with_products))
    = fresh world_with_products
  ∧ ∃ id w1 w2,
      admin_create_product environ_secret plain_paper
        (Some (ADMIN_TOKEN environ_secret)) world_with_products
      = (inr {["id" := VStr id]}, w1)
      ∧ admin_delete_product environ_secret id
          (Some (ADMIN_TOKEN environ_secret)) w1
        = (inr {["deleted" := VBool true]}, w2)
      ∧ _collection w2 "product" = _collection world_with_products "product"
      ∧ (admin_delete_product environ_secret id
           (Some (ADMIN_TOKEN environ_secret)) w2).1
        = inl (HTTPException 404 "Not found").
Proof.
  assert (H1 : ObjectId_is_valid (ObjectId_str (fresh world_with_products))
               = true) by reflexivity.
  assert (H2 : ObjectId_of_str (ObjectId_str (fresh world_with_products))
               = fresh world_with_products) by reflexivity.
  split_and!; [exact H1|exact H2|].
  exact (create_then_delete_restores environ_secret plain_paper
           world_with_products H1 H2 world_with_products_fresh).
Defined.

Lemma laxmi_doc_parses : Business_parse (delete "_id" laxmi_doc) = Some laxmi.
Proof. vm_compute. reflexivity. Defined.

(** X17 at the order of the spec's example, with a profile stored. *)
Lemma create_ink_order_schedules_witness :
  _collection world_with_business "business" = laxmi_doc :: []
  ∧ ∃ w',
      create_ink_order order_A world_with_business
      = (inr {["status" := VStr "ok"]}, w')
      ∧ _collection w' "inkorder"
        = _collection world_with_business "inkorder"
          ++ [stored_order order_A world_with_business]
      ∧ background_tasks w'
        = background_tasks world_with_business ++ [(order_A, laxmi)]
      ∧ trace w'
        = trace world_with_business
          ++ [OpInsert "inkorder" (stored_order order_A world_with_business);
              OpFind "business" ∅; OpAddTask order_A laxmi].
Proof.
  split; [reflexivity|].
  exact (create_ink_order_schedules order_A world_with_business laxmi_doc []
           laxmi eq_refl laxmi_doc_parses).
Defined.

(** X18 with a stored profile that has no email. *)
Lemma create_ink_order_invalid_profile_witness :
  Business_parse (delete "_id" nameless_doc) = None
  ∧ ∃ w',
      create_ink_order order_A world_with_bad_business
      = (inl ValidationError, w')
      ∧ _collection w' "inkorder"
        = _collection world_with_bad_business "inkorder"
          ++ [stored_order order_A world_with_bad_business]
      ∧ background_tasks w' = background_tasks world_with_bad_business.
Proof.
  assert (H : Business_parse (delete "_id" nameless_doc) = None)
    by (vm_compute; reflexivity).
  split; [exact H|].
  exact (create_ink_order_invalid_profile order_A world_with_bad_business
           nameless_doc [] eq_refl H).
Defined.

Lemma send_order_email_sample :
  send_order_email environ_smtp order_A laxmi
  = inr [smtp_connect "mail.example" 587; starttls;
         send_message (order_message None order_A laxmi)].
Proof. vm_compute. reflexivity. Defined.

(** X20 at the order of the spec's example, with an SMTP host configured. *)
Lemma send_order_email_session_witness :
  send_order_email environ_smtp order_A laxmi
  = inr [smtp_connect "mail.example" 587; starttls;
         send_message (order_message None order_A laxmi)]
  ∧ ∃ port tls auth,
      int_of_str (getenv_or environ_smtp "SMTP_PORT" "587") = Some port
      ∧ [smtp_connect "mail.example" 587; starttls;
         send_message (order_message None order_A laxmi)]
        = smtp_connect (the (getenv environ_smtp "SMTP_HOST")) port
          :: tls ++ auth
             ++ [send_message
                   (order_message (getenv environ_smtp "SMTP_USER")
                      order_A laxmi)]
      ∧ (tls = [starttls] ∨ tls = [])
      ∧ (auth = [login (the (getenv environ_smtp "SMTP_USER"))
                       (the (getenv environ_smtp "SMTP_PASSWORD"))]
         ∨ auth = []).
Proof.
  split; [exact send_order_email_sample|].
  destruct (send_order_email_session environ_smtp order_A laxmi _
              send_order_email_sample)
    as (port & tls & auth & Hport & Hsteps & Htls & Hauth & _).
  exists port, tls, auth. split_and!; [exact Hport|exact Hsteps|..].
  - destruct Htls as [[? _]|[? _]]; [by left|by right].
  - destruct Hauth as [[? _]|[? _]]; [by left|by right].
Defined.

(** X21 with only an SMTP host in the environment. *)
Lemma send_order_email_defaults_witness :
  int_of_str "587" = Some 587%Z
  ∧ truthy_opt (getenv environ_host_only "SMTP_HOST") = true
  ∧ send_order_email environ_host_only order_A laxmi
    = inr [smtp_connect (the (getenv environ_host_only "SMTP_HOST")) 587;
           starttls; send_message (order_message None order_A laxmi)]
  ∧ From (order_message None order_A laxmi) = email laxmi.
Proof.
  assert (H1 : int_of_str "587" = Some 587%Z) by reflexivity.
  assert (H2 : truthy_opt (getenv environ_host_only "SMTP_HOST") = true)
    by reflexivity.
  assert (H3 : header_ok (Subject (order_message None order_A laxmi)) = true)
    by (vm_compute; reflexivity).
  assert (H4 : header_ok (email laxmi) = true) by (vm_compute; reflexivity).
  destruct (send_order_email_defaults environ_host_only order_A laxmi H1
              eq_refl eq_refl eq_refl H2 eq_refl H3 H4) as [Hrun Hfrom].
  by split_and!.
Defined.

(** X22 at the order of the spec's example. *)
Lemma order_notifies_stored_business_witness :
  _collection world_with_business "business" = laxmi_doc :: []
  ∧ is_Some (int_of_str (getenv_or environ_smtp "SMTP_PORT" "587"))
  ∧ ∃ w' steps msg,
      create_ink_order order_A world_with_business
      = (inr {["status" := VStr "ok"]}, w')
      ∧ last (background_tasks w') = Some (order_A, laxmi)
      ∧ send_order_email environ_smtp order_A laxmi = inr steps
      ∧ last steps = Some (send_message msg)
      ∧ To msg = email laxmi
      ∧ msg = order_message (getenv environ_smtp "SMTP_USER") order_A laxmi.
Proof.
  assert (H : is_Some (int_of_str (getenv_or environ_smtp "SMTP_PORT" "587")))
    by (by exists 587%Z).
  split_and!; [reflexivity|exact H|].
  assert (Hs : header_ok (Subject (order_message
                  (getenv environ_smtp "SMTP_USER") order_A laxmi)) = true)
    by (vm_compute; reflexivity).
  assert (Hf : header_ok (From (order_message
                  (getenv environ_smtp "SMTP_USER") order_A laxmi)) = true)
    by (vm_compute; reflexivity).
  assert (Ht : header_ok (To (order_message
                  (getenv environ_smtp "SMTP_USER") order_A laxmi)) = true)
    by (vm_compute; reflexivity).
  exact (order_notifies_stored_business environ_smtp order_A
           world_with_business laxmi_doc [] laxmi eq_refl laxmi_doc_parses H
           eq_refl eq_refl Hs Hf Ht).
Defined.

(** X25 with one profile stored. *)
Lemma upsert_updates_first_only_witness :
  _collection world_with_business "business" = laxmi_doc :: []
  ∧ ∃ w',
      admin_upsert_business environ_secret laxmi_new_phone
        (Some (ADMIN_TOKEN environ_secret)) world_with_business
      = (inr Updated, w')
      ∧ _collection w' "business"
        = (Business_dump laxmi_new_phone ∪ laxmi_doc) :: []
      ∧ (Business_dump laxmi_new_phone ∪ laxmi_doc) !! "_id" = Some (VOid 7%N)
      ∧ (EmailStr (email laxmi_new_phone) = Some (email laxmi_new_phone) →
         (get_business_details w').1 = inr (Some laxmi_new_phone)).
Proof.
  split; [reflexivity|].
  exact (upsert_updates_first_only environ_secret laxmi_new_phone
           world_with_business laxmi_doc [] 7%N eq_refl eq_refl).
Defined.

(** The diagnostics on a database whose listing fails, and the token check
    on the sample secret. *)
Example test_database_run :
  database (test_database environ_secret (Some broken_db))
  = "⚠️ Connected but Error: timed out"
  ∧ database_url (test_database environ_secret (Some broken_db))
    = Some "❌ Not Set"
  ∧ collections
      (test_database environ_secret
         (Some {| db_name := "laxmi";
                  list_collection_names :=
                    inr ["a"; "b"; "c"; "d"; "e"; "f"; "g"; "h"; "i"; "j";
                         "k"; "l"] |}))
    = ["a"; "b"; "c"; "d"; "e"; "f"; "g"; "h"; "i"; "j"].
Proof. split_and!; vm_compute; reflexivity. Qed.

Example verify_admin_run :
  verify_admin environ_secret (Some "s3cret") world0 = (inr tt, world0)
  ∧ verify_admin environ_secret (Some "") world0 = (inl Unauthorized, world0)
  ∧ verify_admin environ_secret None world0 = (inl Unauthorized, world0).
Proof. split_and!; reflexivity. Qed.

(** A color with a line break in it: [EmailMessage] does not take the
    subject, and [send_order_email] raises before any connection; a line
    boundary at the very end of a value is taken. *)
Example line_break_in_color_run :
  send_order_email environ_smtp order_two_lines laxmi = inl ValueError
  ∧ header_ok ("Red" +:+ nl +:+ "Blue") = false
  ∧ header_ok ("Red" +:+ nl) = true
  ∧ header_ok ("Red" +:+ String "013" nl) = true
  ∧ header_ok ("Red" +:+ String "013" nl +:+ "Blue") = false.
Proof. split_and!; vm_compute; reflexivity. Qed.

(** The first characters of a text with a letter of two bytes. *)
Example str_take_run :
  str_take 1 "éa" = "é"
  ∧ char_count "éa" = 2
  ∧ String.length "éa" = 3
  ∧ str_take 80 "timed out" = "timed out".
Proof. split_and!; vm_compute; reflexivity. Qed.
